(** * Workflow input-schema resolution and the notification handlers

    A shallow embedding of two pieces of the backstage-plugins repository:

    - the [GET /workflows/:workflowId/inputSchema] route of
      [plugins/orchestrator-backend/src/service/router.ts], and
    - [createNotification] / [getNotifications] of the notifications
      backend handlers.

    Asynchronous calls are modelled in the order in which the handler
    awaits them; a rejected promise is a thrown error. *)

From Stdlib Require Import List Ascii String ZArith Lia Bool.
Import ListNotations.
Local Open Scope string_scope.
Local Open Scope list_scope.
Local Open Scope Z_scope.

Set Implicit Arguments.
Set Warnings "-register-all".

(** ** JavaScript values *)

(** In-memory JSON-like values.  [JUndefined] is kept because the route
    tests [item[key] !== undefined] on the objects it receives.  Numbers
    only matter through their truthiness, so integers stand for them.
    An object is its list of own properties in enumeration order. *)
Inductive JsValue : Type :=
| JUndefined
| JNull
| JBool (b : bool)
| JNum (n : Z)
| JStr (s : string)
| JArr (items : list JsValue)
| JObj (props : list (string * JsValue)).

Definition JsonObject : Type := list (string * JsValue).

(** [s] used as a condition: only the empty string is falsy. *)
Definition truthy_string (s : string) : bool :=
  match s with
  | EmptyString => false
  | String _ _ => true
  end.

(** [v] used as a condition ([if (v)], [!v]). *)
Definition truthy (v : JsValue) : bool :=
  match v with
  | JUndefined => false
  | JNull => false
  | JBool b => b
  | JNum n => negb (n =? 0)
  | JStr s => truthy_string s
  | JArr _ => true
  | JObj _ => true
  end.

Definition is_undefined (v : JsValue) : bool :=
  match v with
  | JUndefined => true
  | _ => false
  end.

(** [o[key]]: the first property named [key], [undefined] when there is
    none. *)
Fixpoint get_prop (key : string) (o : JsonObject) : JsValue :=
  match o with
  | [] => JUndefined
  | (k, v) :: rest => if String.eqb k key then v else get_prop key rest
  end.

(** [Object.keys(o)]. *)
Definition object_keys (o : JsonObject) : list string := map fst o.

(** ** Errors and collaborator results *)

(** The result of awaiting a collaborator: it either throws (the promise
    rejects) or returns a value. *)
Inductive Exc (A : Type) : Type :=
| Throw (msg : string)
| Return (a : A).

Arguments Throw {A} msg.
Arguments Return {A} a.

Module Orchestrator.

(** *** Types of the orchestrator API *)

(** [dataInputSchema] of a workflow definition: a reference string or an
    object carrying one. *)
Inductive DataInputSchema : Type :=
| SchemaRef (ref : string)
| SchemaObj (schema : string) (failOnValidationErrors : bool).

Definition truthy_dataInputSchema (d : option DataInputSchema) : bool :=
  match d with
  | None => false
  | Some (SchemaRef ref) => truthy_string ref
  | Some (SchemaObj _ _) => true
  end.

Record WorkflowDefinition : Type := {
  def_id : string;
  dataInputSchema : option DataInputSchema
}.

Section Resolver.

(** The JSON-schema document type ([JSONSchema7]); both the declared
    input schema and each parsed fragment are of this type. *)
Variable Schema : Type.

(** [WORKFLOW_DATA_KEY] of [./constants]. *)
Variable WORKFLOW_DATA_KEY : string.

Record WorkflowInfo : Type := {
  info_id : string;
  serviceUrl : option string;
  inputSchema : option Schema
}.

Record WorkflowItem : Type := {
  uri : string;
  definition : WorkflowDefinition
}.

Record InitialState : Type := {
  values : list JsonObject;
  readonlyKeys : list string
}.

Record WorkflowDataInputSchemaResponse : Type := {
  workflowItem : WorkflowItem;
  schemas : list Schema;
  initialState : InitialState
}.

(** The collaborators the route calls through [services]. *)
Record Services : Type := {
  (* dataIndexService *)
  getWorkflowDefinition : string -> Exc WorkflowInfo;
  fetchProcessInstanceVariables : string -> Exc (option JsonObject);
  (* sonataFlowService *)
  fetchWorkflowDefinition : string -> Exc (option WorkflowDefinition);
  fetchWorkflowUri : string -> Exc (option string);
  fetchWorkflowInfo : string -> string -> Exc (option WorkflowInfo);
  (* dataInputSchemaService *)
  parseComposition : Schema -> Exc (list Schema);
  extractInitialStateFromWorkflowData :
    JsValue -> list Schema -> Exc (list JsonObject)
}.

(** One entry of the log of collaborator calls, in call order. *)
Inductive Call : Type :=
| CallGetWorkflowDefinition (workflowId : string)
| CallFetchWorkflowDefinition (workflowId : string)
| CallFetchWorkflowUri (workflowId : string)
| CallFetchWorkflowInfo (workflowId serviceUrl : string)
| CallParseComposition
| CallFetchProcessInstanceVariables (instanceId : string)
| CallExtractInitialState (workflowData : JsValue).

Inductive Body : Type :=
| Text (s : string)
| Json (r : WorkflowDataInputSchemaResponse).

(** How a request ends: an uncaught error, or a response sent with
    [res.status(status).send(..)] / [.json(..)]. *)
Inductive Outcome : Type :=
| Threw (msg : string)
| Sent (status : Z) (body : Body).

(** *** The handler monad: a call log plus early exit *)

Definition M (A : Type) : Type := list Call -> list Call * (Outcome + A).

Definition ret {A} (a : A) : M A := fun log => (log, inr a).

Definition bind {A B} (m : M A) (k : A -> M B) : M B :=
  fun log =>
    match m log with
    | (log', inl o) => (log', inl o)
    | (log', inr a) => k a log'
    end.

(** Await a collaborator: log the call, propagate a thrown error. *)
Definition call {A} (c : Call) (r : Exc A) : M A :=
  fun log =>
    (log ++ [c],
     match r with
     | Throw msg => inl (Threw msg)
     | Return a => inr a
     end).

(** [throw new Error(msg)]. *)
Definition throw {A} (msg : string) : M A := fun log => (log, inl (Threw msg)).

(** [res.status(status).send(body); return;]. *)
Definition respond {A} (status : Z) (body : Body) : M A :=
  fun log => (log, inl (Sent status body)).

Definition run (m : M Empty_set) : list Call * Outcome :=
  match m [] with
  | (log, inl o) => (log, o)
  | (log, inr e) => match e with end
  end.

Notation "x <- m ;; k" := (bind m (fun x => k))
  (at level 61, m at next level, right associativity).

(** *** The route [GET /workflows/:workflowId/inputSchema] *)

(** [cond ? await fetchProcessInstanceVariables(id) : undefined]. *)
Definition fetchVariablesIf (services : Services) (id : option string)
  : M (option JsonObject) :=
  match id with
  | Some i =>
      if truthy_string i
      then call (CallFetchProcessInstanceVariables i)
                (fetchProcessInstanceVariables services i)
      else ret None
  | None => ret None
  end.

(** [variables?.[WORKFLOW_DATA_KEY]]. *)
Definition workflowDataOf (variables : option JsonObject) : JsValue :=
  match variables with
  | Some vars => get_prop WORKFLOW_DATA_KEY vars
  | None => JUndefined
  end.

(** [Object.keys(item).filter(key => item[key] !== undefined)], the
    body of the [map] whose result is flattened into [readonlyKeys]. *)
Definition definedKeys (item : JsonObject) : list string :=
  filter (fun key => negb (is_undefined (get_prop key item)))
         (object_keys item).

(** The keys of every item, item after item, duplicates kept. *)
Definition readonlyKeysOf (items : list JsonObject) : list string :=
  List.concat (map definedKeys items).

(** The handler.  [instanceId] and [assessmentInstanceId] are the two
    query parameters as [extractQueryParamV1] returns them ([None] for
    [undefined]); [!serviceUrl] and [!uri] are true for [undefined] and
    for the empty string.  The mutable [initialState] / [readonlyKeys]
    pair is the value [state] threaded to the final response. *)
Definition inputSchemaRoute (services : Services) (workflowId : string)
    (instanceId assessmentInstanceId : option string) : M Empty_set :=
  workflowDefinition <-
    call (CallGetWorkflowDefinition workflowId)
         (getWorkflowDefinition services workflowId) ;;
  match serviceUrl workflowDefinition with
  | None =>
      throw ("ServiceUrl is not defined for workflow " ++ workflowId)%string
  | Some url =>
  if negb (truthy_string url)
  then
    throw ("ServiceUrl is not defined for workflow " ++ workflowId)%string
  else
  (* workflow source *)
  definition <-
    call (CallFetchWorkflowDefinition workflowId)
         (fetchWorkflowDefinition services workflowId) ;;
  match definition with
  | None =>
      respond 500
        (Text ("Couldn't fetch workflow definition " ++ workflowId)%string)
  | Some definition =>
  uri <-
    call (CallFetchWorkflowUri workflowId)
         (fetchWorkflowUri services workflowId) ;;
  match uri with
  | None =>
      respond 500 (Text ("Couldn't fetch workflow uri " ++ workflowId)%string)
  | Some uri =>
  if negb (truthy_string uri)
  then
    respond 500 (Text ("Couldn't fetch workflow uri " ++ workflowId)%string)
  else
  let workflowItem := {| uri := uri; definition := definition |} in
  let response :=
    {| workflowItem := workflowItem;
       schemas := [];
       initialState := {| values := []; readonlyKeys := [] |} |} in
  if negb (truthy_dataInputSchema (dataInputSchema definition))
  then respond 200 (Json response)
  else
  workflowInfo <-
    call (CallFetchWorkflowInfo workflowId url)
         (fetchWorkflowInfo services workflowId url) ;;
  match workflowInfo with
  | None =>
      respond 500 (Text ("Couldn't fetch workflow info " ++ workflowId)%string)
  | Some workflowInfo =>
  match inputSchema workflowInfo with
  | None =>
      respond 500
        (Text ("Couldn't fetch workflow input schema " ++ workflowId)%string)
  | Some inputSchema =>
  schemas <-
    call CallParseComposition (parseComposition services inputSchema) ;;
  instanceVariables <- fetchVariablesIf services instanceId ;;
  let instanceWorkflowData := workflowDataOf instanceVariables in
  initialState <-
    (if truthy instanceWorkflowData
     then call (CallExtractInitialState instanceWorkflowData)
               (extractInitialStateFromWorkflowData services
                  instanceWorkflowData schemas)
     else ret []) ;;
  assessmentInstanceVariables <-
    fetchVariablesIf services assessmentInstanceId ;;
  let assessmentInstanceWorkflowData :=
    workflowDataOf assessmentInstanceVariables in
  state <-
    (if truthy assessmentInstanceWorkflowData
     then
       assessmentInstanceInitialState <-
         call (CallExtractInitialState assessmentInstanceWorkflowData)
              (extractInitialStateFromWorkflowData services
                 assessmentInstanceWorkflowData schemas) ;;
       let initialState :=
         if (List.length initialState =? 0)%nat
         then assessmentInstanceInitialState
         else initialState in
       ret (initialState, readonlyKeysOf assessmentInstanceInitialState)
     else ret (initialState, [])) ;;
  respond 200
    (Json {| workflowItem := workflowItem;
             schemas := schemas;
             initialState :=
               {| values := fst state; readonlyKeys := snd state |} |})
  end end end end end.

(** *** Vocabulary for the statements about the route *)

(** The first step succeeds: the data index knows the service url
    [url], and the engine returns the definition [def] and the uri [u]. *)
Definition DefinitionFetched (services : Services) (workflowId url : string)
    (def : WorkflowDefinition) (u : string) : Prop :=
  (exists wd, getWorkflowDefinition services workflowId = Return wd
              /\ serviceUrl wd = Some url)
  /\ truthy_string url = true
  /\ fetchWorkflowDefinition services workflowId = Return (Some def)
  /\ fetchWorkflowUri services workflowId = Return (Some u)
  /\ truthy_string u = true.

(** Every step before parsing succeeds: moreover the definition declares
    an input schema and the runtime info carries the schema [schema]. *)
Definition ReachesParse (services : Services) (workflowId url : string)
    (def : WorkflowDefinition) (u : string) (schema : Schema) : Prop :=
  DefinitionFetched services workflowId url def u
  /\ truthy_dataInputSchema (dataInputSchema def) = true
  /\ exists info, fetchWorkflowInfo services workflowId url = Return (Some info)
                  /\ inputSchema info = Some schema.

(** The variable lookup for one role (primary or assessment) completes
    and leaves [data] as that role's workflow data; [data] is
    [undefined] when no id was given or nothing usable came back. *)
Inductive Lookup (services : Services) : option string -> JsValue -> Prop :=
| LookupNoId : Lookup services None JUndefined
| LookupEmptyId : forall i,
    truthy_string i = false -> Lookup services (Some i) JUndefined
| LookupFetched : forall i vars,
    truthy_string i = true ->
    fetchProcessInstanceVariables services i = Return vars ->
    Lookup services (Some i) (workflowDataOf vars).

(** The extraction for one role: skipped on falsy data, otherwise it
    returns the state [st]. *)
Inductive Extracted (services : Services) (schemas : list Schema)
  : JsValue -> option (list JsonObject) -> Prop :=
| ExtractedSkipped : forall data,
    truthy data = false -> Extracted services schemas data None
| ExtractedState : forall data st,
    truthy data = true ->
    extractInitialStateFromWorkflowData services data schemas = Return st ->
    Extracted services schemas data (Some st).

(** The three ways the first step can come back empty-handed. *)
Definition NoEndpoint (services : Services) (workflowId : string) : Prop :=
  exists wd, getWorkflowDefinition services workflowId = Return wd
             /\ (serviceUrl wd = None \/ serviceUrl wd = Some EmptyString).

Definition NoDefinition (services : Services) (workflowId : string) : Prop :=
  fetchWorkflowDefinition services workflowId = Return None.

Definition NoUri (services : Services) (workflowId : string) : Prop :=
  fetchWorkflowUri services workflowId = Return None
  \/ fetchWorkflowUri services workflowId = Return (Some EmptyString).

(** The request failed: an uncaught error or a non-200 status. *)
Definition failed (o : Outcome) : bool :=
  match o with
  | Threw _ => true
  | Sent status _ => negb (status =? 200)
  end.

(** The successful response, if that is how the request ended. *)
Definition responseOf (o : Outcome) : option WorkflowDataInputSchemaResponse :=
  match o with
  | Sent 200 (Json r) => Some r
  | _ => None
  end.

(** What the route leaves in [initialState] and [readonlyKeys] once both
    roles are extracted ([None]: extraction skipped for that role). *)
Definition resolvedState (primary assessment : option (list JsonObject))
  : InitialState :=
  let initialState := match primary with Some st => st | None => [] end in
  match assessment with
  | Some assessmentState =>
      {| values := if (List.length initialState =? 0)%nat
                   then assessmentState else initialState;
         readonlyKeys := readonlyKeysOf assessmentState |}
  | None => {| values := initialState; readonlyKeys := [] |}
  end.

(** [key] has a defined value in [item]. *)
Definition hasDefined (key : string) (item : JsonObject) : Prop :=
  In key (object_keys item) /\ get_prop key item <> JUndefined.

End Resolver.

Arguments Text {Schema} s.
Arguments Threw {Schema} msg.
Arguments LookupNoId {Schema WORKFLOW_DATA_KEY services}.

End Orchestrator.

(** ** The notifications handlers *)

Module Notifications.

(** A row of the [messages] table. *)
Record Message : Type := {
  id : string;
  created : Z;
  origin : string;
  title : string;
  message : option string;
  topic : option string
}.

(** [MessagesInsert]: the columns [createNotification] supplies. *)
Record MessagesInsert : Type := {
  ins_origin : string;
  ins_title : string;
  ins_message : option string;
  ins_topic : option string
}.

(** The object [getNotifications] builds for each row. *)
Record Notification : Type := {
  n_id : string;
  n_created : Z;
  readByUser : bool;
  n_origin : string;
  n_title : string;
  n_message : option string;
  n_topic : option string
}.

Record CreateNotificationRequest : Type := {
  req_origin : string;
  req_title : string;
  req_message : option string;
  req_topic : option string;
  targetUsers : option (list string);
  targetGroups : option (list string)
}.

Record NotificationsFilter : Type := {
  containsText : option string;
  createdAfter : option Z
}.

Record CreateResult : Type := { msgid : string }.

(** A Knex query on [messages]: its [where] predicates and the optional
    [limit] and [offset]. *)
Record Query : Type := {
  wheres : list (Message -> bool);
  q_limit : option Z;
  q_offset : option Z
}.

Section Handlers.

(** Catalog entities are opaque to the handlers. *)
Variable Entity : Type.

(** The database's [ILIKE]: [ilike value pattern]. *)
Variable ilike : string -> string -> bool.

(** Column defaults filled in by the database on insert. *)
Variable defaultId : list Message -> string.
Variable defaultCreated : list Message -> Z.

(** [Number.MAX_SAFE_INTEGER]: up to here a JS number holds every
    integer exactly, Knex passes it on unchanged and the database
    accepts it as a limit or an offset. *)
Definition maxSafeInteger : Z := 9007199254740991.

(** What Knex and the database make of a limit or an offset outside
    [0 .. maxSafeInteger], given the rows selected by the where clauses:
    there the JS arithmetic rounds, Knex re-reads the number from its
    text and the database may reject the value as out of range.  Left
    open. *)
Variable unsafePaging :
  list Message -> option Z -> option Z -> Exc (list Message).

(** Which of several rejected promises settles first, as an index into
    their reasons: [Promise.all] rejects with that reason.  Left open. *)
Variable firstToReject : list string -> nat.

(** [dbClient('messages').select('*')]. *)
Definition selectAll : Query :=
  {| wheres := []; q_limit := None; q_offset := None |}.

Definition andWhere (q : Query) (p : Message -> bool) : Query :=
  {| wheres := wheres q ++ [p]; q_limit := q_limit q; q_offset := q_offset q |}.

Definition limit (q : Query) (n : Z) : Query :=
  {| wheres := wheres q; q_limit := Some n; q_offset := q_offset q |}.

Definition offset (q : Query) (n : Z) : Query :=
  {| wheres := wheres q; q_limit := q_limit q; q_offset := Some n |}.

Definition inSafeRange (n : option Z) : bool :=
  match n with
  | Some n => (0 <=? n) && (n <=? maxSafeInteger)
  | None => true
  end.

(** Awaiting a query.  [rows] is the table in the order in which the
    database yields its rows to this query; the queries have no
    [ORDER BY], so nothing says that two queries see the same order.
    With limit and offset in the safe range the result is the rows
    satisfying every predicate, after [offset] of them are skipped and
    at most [limit] kept.  Outside it the outcome, a page or the
    database's error, is [unsafePaging]'s; a positive limit still bounds
    the number of rows. *)
Definition runQuery (rows : list Message) (q : Query)
  : Exc (list Message) :=
  let matching := filter (fun m => forallb (fun p => p m) (wheres q)) rows in
  if inSafeRange (q_limit q) && inSafeRange (q_offset q)
  then
    let skipped :=
      match q_offset q with
      | Some o => skipn (Z.to_nat o) matching
      | None => matching
      end in
    Return
      match q_limit q with
      | Some l => firstn (Z.to_nat l) skipped
      | None => skipped
      end
  else
    match unsafePaging matching (q_limit q) (q_offset q) with
    | Throw msg => Throw msg
    | Return page =>
        Return
          match q_limit q with
          | Some l => if 0 <? l then firstn (Z.to_nat l) page else page
          | None => page
          end
    end.

(** A comparison with a NULL column is not true. *)
Definition ilikeColumn (column : option string) (pattern : string) : bool :=
  match column with
  | Some value => ilike value pattern
  | None => false
  end.

Definition addFilter (query : Query) (filter : NotificationsFilter) : Query :=
  let query :=
    match containsText filter with
    | Some text =>
        if truthy_string text
        then
          let pattern := ("%" ++ text ++ "%")%string in
          andWhere query
            (fun m => ilike (title m) pattern
                      || ilikeColumn (message m) pattern)
        else query
    | None => query
    end in
  match createdAfter filter with
  | Some after => andWhere query (fun m => created m >? after)
  | None => query
  end.

Definition toNotification (message : Message) : Notification :=
  {| n_id := id message;
     n_created := created message;
     readByUser := false;
     n_origin := origin message;
     n_title := title message;
     n_message := Notifications.message message;
     n_topic := topic message |}.

(** [rows] is the content of the [messages] table.  The page
    parameters are JS numbers with an integer value, as the route obtains
    them with [parseInt]; a rejected query rejects the call. *)
Definition getNotifications (rows : list Message)
    (filter : NotificationsFilter) (pageSize pageNumber : Z)
  : Exc (list Notification) :=
  if (pageSize <? 0) || (pageNumber <? 0)
     || ((pageSize =? 0) && (pageNumber >? 0))
     || ((pageSize >? 0) && (pageNumber =? 0))
  then
    Throw "pageSize and pageNumber must both be either 0 or greater than 0"
  else
    let query := selectAll in
    let query := addFilter query filter in
    let query :=
      if pageNumber >? 0
      then offset (limit query pageSize) ((pageNumber - 1) * pageSize)
      else query in
    match runQuery rows query with
    | Throw msg => Throw msg
    | Return messages => Return (map toNotification messages)
    end.

(** [dbClient('messages').insert(row).returning('id')]: the new table and
    the ids of the inserted rows. *)
Definition insertReturningId (rows : list Message) (row : MessagesInsert)
  : list Message * list string :=
  let m := {| id := defaultId rows;
              created := defaultCreated rows;
              origin := ins_origin row;
              title := ins_title row;
              message := ins_message row;
              topic := ins_topic row |} in
  (rows ++ [m], [id m]).

(** [catalogClient.getEntityByRef(kind + ":" + name).then(ref => { if
    (!ref) throw ... })]. *)
Definition checkEntity (getEntityByRef : string -> Exc (option Entity))
    (kind name : string) : Exc unit :=
  match getEntityByRef (kind ++ ":" ++ name)%string with
  | Throw msg => Throw msg
  | Return None => Throw (kind ++ " '" ++ name ++ "' does not exist")%string
  | Return (Some _) => Return tt
  end.

(** The reasons of the rejected promises, in list order. *)
Fixpoint rejections (promises : list (Exc unit)) : list string :=
  match promises with
  | [] => []
  | Throw msg :: rest => msg :: rejections rest
  | Return _ :: rest => rejections rest
  end.

(** [await Promise.all(promises)]: every promise has been started; if
    some reject, the call rejects with the reason of the one that
    settles first. *)
Definition awaitAll (promises : list (Exc unit)) : Exc unit :=
  match rejections promises with
  | [] => Return tt
  | first :: rest =>
      Throw (nth (firstToReject (first :: rest)) (first :: rest) first)
  end.

(** [if (Array.isArray(names)) { await Promise.all(names.map(..)) }]. *)
Definition checkTargets (getEntityByRef : string -> Exc (option Entity))
    (kind : string) (names : option (list string)) : Exc unit :=
  match names with
  | Some names => awaitAll (map (checkEntity getEntityByRef kind) names)
  | None => Return tt
  end.

(** Returns the table after the call together with the result. *)
Definition createNotification (rows : list Message)
    (getEntityByRef : string -> Exc (option Entity))
    (req : CreateNotificationRequest)
  : list Message * Exc CreateResult :=
  match checkTargets getEntityByRef "group" (targetGroups req) with
  | Throw msg => (rows, Throw msg)
  | Return _ =>
  match checkTargets getEntityByRef "user" (targetUsers req) with
  | Throw msg => (rows, Throw msg)
  | Return _ =>
  let row := {| ins_origin := req_origin req;
                ins_title := req_title req;
                ins_message := req_message req;
                ins_topic := req_topic req |} in
  let (rows', ids) := insertReturningId rows row in
  match ids with
  | first :: _ => (rows', Return {| msgid := first |})
  | [] => (rows', Throw "TypeError: ids[0] is undefined")
  end
  end end.

(** *** Vocabulary for the statements about the handlers *)

(** The rows selected by a filter: those satisfying every predicate
    that [addFilter] puts on the query. *)
Definition matchingRows (f : NotificationsFilter) (rows : list Message)
  : list Message :=
  List.filter
    (fun m => forallb (fun p => p m) (wheres (addFilter selectAll f))) rows.

(** The names listed under an optional target array. *)
Definition namesOf (names : option (list string)) : list string :=
  match names with
  | Some names => names
  | None => []
  end.

(** Some referenced group or user is not in the catalog. *)
Definition SomeTargetMissing (getEntityByRef : string -> Exc (option Entity))
    (req : CreateNotificationRequest) : Prop :=
  (exists group, In group (namesOf (targetGroups req))
                 /\ getEntityByRef ("group:" ++ group)%string = Return None)
  \/ (exists user, In user (namesOf (targetUsers req))
                   /\ getEntityByRef ("user:" ++ user)%string = Return None).

(** Every referenced group and user is in the catalog. *)
Definition AllTargetsExist (getEntityByRef : string -> Exc (option Entity))
    (req : CreateNotificationRequest) : Prop :=
  (forall group, In group (namesOf (targetGroups req)) ->
     exists e, getEntityByRef ("group:" ++ group)%string = Return (Some e))
  /\ (forall user, In user (namesOf (targetUsers req)) ->
        exists e, getEntityByRef ("user:" ++ user)%string = Return (Some e)).

End Handlers.

End Notifications.

(** ** The schema service, and a concrete deployment *)

Module DataInputSchemaModel.

(** Modelled from the spec: [DataInputSchemaService] ([parseComposition]
    and [extractInitialStateFromWorkflowData]) is imported by the router
    but is not among the sources.  A fragment is an identifier, a label
    and its ordered field names; a declared schema is either flat or a
    composition of members, where a member that lacks the minimal
    structural shape carries no fragment.  Field references inside a
    member are not modelled. *)
Record SchemaFragment : Type := {
  frag_id : string;
  frag_label : string;
  frag_fields : list string
}.

(** Modelled from the spec: the declared schema as a tagged variant over
    flat and composed schemas (design notes); a [None] member is one
    without the minimal structural shape. *)
Inductive InputSchemaDefinition : Type :=
| FlatSchema (fragment : SchemaFragment)
| ComposedSchema (members : list (option SchemaFragment)).

(** Modelled from the spec: every member of a composition, in
    declaration order, or a [SchemaError] when one of them is malformed. *)
Fixpoint membersOf (members : list (option SchemaFragment))
  : Exc (list InputSchemaDefinition) :=
  match members with
  | [] => Return []
  | None :: _ => Throw "SchemaError"
  | Some fragment :: rest =>
      match membersOf rest with
      | Throw msg => Throw msg
      | Return fragments => Return (FlatSchema fragment :: fragments)
      end
  end.

(** Modelled from the spec: section 4.1, [parse]: a plain schema is a
    single fragment, a composition yields one fragment per member. *)
Definition parseComposition (schema : InputSchemaDefinition)
  : Exc (list InputSchemaDefinition) :=
  match schema with
  | FlatSchema fragment => Return [FlatSchema fragment]
  | ComposedSchema members => membersOf members
  end.

(** Modelled from the spec: the ordered field names of a fragment. *)
Definition fieldsOf (schema : InputSchemaDefinition) : list string :=
  match schema with
  | FlatSchema fragment => frag_fields fragment
  | ComposedSchema _ => []
  end.

(** Modelled from the spec: section 4.2, one fragment's values: a field
    is kept only when its value is present and not [undefined]. *)
Definition extractFragment (workflowData : JsonObject)
    (schema : InputSchemaDefinition) : JsonObject :=
  flat_map
    (fun field =>
       match get_prop field workflowData with
       | JUndefined => []
       | value => [(field, value)]
       end)
    (fieldsOf schema).

(** Modelled from the spec: section 4.2, [extract]: one mapping per
    fragment, in fragment order; all of them empty when the data is not
    an object. *)
Definition extractInitialStateFromWorkflowData (workflowData : JsValue)
    (schemas : list InputSchemaDefinition) : Exc (list JsonObject) :=
  match workflowData with
  | JObj props => Return (map (extractFragment props) schemas)
  | _ => Return (map (fun _ => []) schemas)
  end.

End DataInputSchemaModel.

Module Deployment.

Import DataInputSchemaModel Orchestrator.

(** A deployment used to evaluate the route: workflow [onboard] with the
    two-step form [personal: name, age] and [contact: email]. *)
Definition workflowDataKey : string := "workflowdata".

Definition personal : SchemaFragment :=
  {| frag_id := "personal"; frag_label := "Personal";
     frag_fields := ["name"; "age"] |}.

Definition contact : SchemaFragment :=
  {| frag_id := "contact"; frag_label := "Contact";
     frag_fields := ["email"] |}.

Definition twoStepForm : InputSchemaDefinition :=
  ComposedSchema [Some personal; Some contact].

Definition onboardDefinition : WorkflowDefinition :=
  {| def_id := "onboard";
     dataInputSchema := Some (SchemaRef "schemas/onboard-input.json") |}.

(** Instance [i-ann] has recorded a name; [a-full] and [a-partial] are
    assessment instances; [i-ticket] has data but none of the form's
    fields; [i-novars] has variables but no workflow data; every other
    id is unknown to the index. *)
Definition instanceVariablesOf (instanceId : string) : option JsonObject :=
  if String.eqb instanceId "i-ann"
  then Some [(workflowDataKey, JObj [("name", JStr "Ann")])]
  else if String.eqb instanceId "a-full"
  then Some [(workflowDataKey,
              JObj [("name", JStr "Ann"); ("age", JNum 30);
                    ("email", JStr "a@x.com")])]
  else if String.eqb instanceId "a-partial"
  then Some [(workflowDataKey,
              JObj [("age", JNum 30); ("email", JStr "a@x.com")])]
  else if String.eqb instanceId "i-ticket"
  then Some [(workflowDataKey, JObj [("ticket", JStr "T-1")])]
  else if String.eqb instanceId "i-novars"
  then Some [("other", JNum 1)]
  else None.

(** A definition that declares no input schema. *)
Definition plainDefinition : WorkflowDefinition :=
  {| def_id := "onboard"; dataInputSchema := None |}.

(** The data index records [endpoint], the engine answers with
    [definition] and its runtime info carries [runtimeSchema]. *)
Definition services (endpoint : option string)
    (definition : option WorkflowDefinition)
    (runtimeSchema : option InputSchemaDefinition)
  : Services InputSchemaDefinition :=
  {| getWorkflowDefinition := fun workflowId =>
       Return {| info_id := workflowId; serviceUrl := endpoint;
                 inputSchema := None |};
     fetchProcessInstanceVariables := fun instanceId =>
       Return (instanceVariablesOf instanceId);
     fetchWorkflowDefinition := fun _ => Return definition;
     fetchWorkflowUri := fun _ => Return (Some "onboard.sw.yaml");
     fetchWorkflowInfo := fun workflowId url =>
       Return (Some {| info_id := workflowId; serviceUrl := Some url;
                       inputSchema := runtimeSchema |});
     parseComposition := DataInputSchemaModel.parseComposition;
     extractInitialStateFromWorkflowData :=
       DataInputSchemaModel.extractInitialStateFromWorkflowData |}.

Definition onboardServices : Services InputSchemaDefinition :=
  services (Some "http://onboard.svc") (Some onboardDefinition)
           (Some twoStepForm).

(** Resolve the input schema of [onboard] for the given instance ids. *)
Definition resolve (s : Services InputSchemaDefinition)
    (instanceId assessmentInstanceId : option string)
  : list Call * Outcome InputSchemaDefinition :=
  run (inputSchemaRoute workflowDataKey s "onboard"
         instanceId assessmentInstanceId).

Definition onboardFragments : list InputSchemaDefinition :=
  [FlatSchema personal; FlatSchema contact].

End Deployment.

(** ** A concrete message table and catalog *)

Module Inbox.

Import Notifications.

(** ASCII case folding, for the pattern match below. *)
Definition lower (c : Ascii.ascii) : Ascii.ascii :=
  let n := Ascii.nat_of_ascii c in
  if ((65 <=? n) && (n <=? 90))%nat then Ascii.ascii_of_nat (n + 32) else c.

(** A simplified [ILIKE]: [%] matches any run of characters, [_] any one
    character, every other character matches itself up to ASCII case. *)
Fixpoint likeMatch (pattern value : string) : bool :=
  match pattern with
  | EmptyString =>
      match value with EmptyString => true | String _ _ => false end
  | String c pattern' =>
      if Ascii.eqb c "%"%char
      then
        (fix anySuffix (v : string) : bool :=
           likeMatch pattern' v
           || match v with
              | EmptyString => false
              | String _ v' => anySuffix v'
              end) value
      else
        match value with
        | EmptyString => false
        | String d value' =>
            (Ascii.eqb c "_"%char || Ascii.eqb (lower c) (lower d))
            && likeMatch pattern' value'
        end
  end.

Definition ilike (value pattern : string) : bool := likeMatch pattern value.

(** Ids and creation times the database assigns: the row number. *)
Definition defaultId (rows : list Message) : string :=
  String (Ascii.ascii_of_nat (48 + List.length rows)) EmptyString.

Definition defaultCreated (rows : list Message) : Z :=
  1000 + Z.of_nat (List.length rows).

Definition diskRow : Message :=
  {| id := "0"; created := 1000; origin := "monitor";
     title := "Disk almost full"; message := Some "Volume /var at 91%";
     topic := Some "infra" |}.

Definition deployRow : Message :=
  {| id := "1"; created := 1001; origin := "ci";
     title := "Deploy finished"; message := None; topic := None |}.

Definition quotaRow : Message :=
  {| id := "2"; created := 1002; origin := "monitor";
     title := "Quota warning"; message := Some "DISK quota at 80%";
     topic := Some "infra" |}.

Definition inbox : list Message := [diskRow; deployRow; quotaRow].

(** A database whose limits and offsets are 64-bit integers: a larger
    value is rejected, any other is applied as it is. *)
Definition bigintMax : Z := 9223372036854775807.

Definition unsafePaging (matching : list Message) (limit offset : option Z)
  : Exc (list Message) :=
  let tooBig n :=
    match n with Some n => bigintMax <? n | None => false end in
  if tooBig limit || tooBig offset
  then Throw "value out of range for type bigint"
  else
    Return
      (let skipped :=
         match offset with
         | Some o => skipn (Z.to_nat o) matching
         | None => matching
         end in
       match limit with
       | Some l => firstn (Z.to_nat l) skipped
       | None => skipped
       end).

(** Rejections settle in the order of the list, the last one first. *)
Definition firstToReject (reasons : list string) : nat :=
  Nat.pred (List.length reasons).

Definition noFilter : NotificationsFilter :=
  {| containsText := None; createdAfter := None |}.

Definition diskFilter : NotificationsFilter :=
  {| containsText := Some "disk"; createdAfter := None |}.

(** A catalog with one group and one user. *)
Definition getEntityByRef (ref : string) : Exc (option unit) :=
  if String.eqb ref "group:admins" || String.eqb ref "user:ann"
  then Return (Some tt)
  else Return None.

Definition request (users groups : option (list string))
  : CreateNotificationRequest :=
  {| req_origin := "ci"; req_title := "Build failed";
     req_message := Some "See the pipeline log"; req_topic := None;
     targetUsers := users; targetGroups := groups |}.

End Inbox.

(** ** The count handler of the notifications backend *)

Module NotificationsRoutes.

Import Notifications.

Record CountResult : Type := { count : Z }.

Section Routes.

Variable ilike : string -> string -> bool.
Variable unsafePaging :
  list Message -> option Z -> option Z -> Exc (list Message).

(** Awaiting [dbClient('messages').count('* as CNT')]: a single row
    whose [CNT] is the number of selected rows. *)
Definition runCount (rows : list Message) (q : Query) : Exc (list Z) :=
  match runQuery unsafePaging rows q with
  | Throw msg => Throw msg
  | Return selected => Return [Z.of_nat (List.length selected)]
  end.

Definition getNotificationsCount (rows : list Message)
    (filter : NotificationsFilter) : Exc CountResult :=
  let msgcount := -1 in
  let query := selectAll in
  let query := addFilter ilike query filter in
  match runCount rows query with
  | Throw msg => Throw msg
  | Return (first :: _) => Return {| count := first |}
  | Return [] => Throw "TypeError: count[0] is undefined"
  end.

(** *** Vocabulary for the statements about paging and filtering *)


(** The text condition of a filter on a row: no condition without a
    non-empty [containsText], otherwise the title or the message has to
    match the pattern. *)
Definition TextMatches (f : NotificationsFilter) (m : Message) : Prop :=
  match containsText f with
  | Some text =>
      truthy_string text = true ->
      ilike (title m) ("%" ++ text ++ "%")%string = true
      \/ exists body, message m = Some body
                      /\ ilike body ("%" ++ text ++ "%")%string = true
  | None => True
  end.

(** The date condition of a filter on a row. *)
Definition CreatedMatches (f : NotificationsFilter) (m : Message) : Prop :=
  match createdAfter f with
  | Some after => after < created m
  | None => True
  end.

(** A filter that sets no condition. *)
Definition NoConditions (f : NotificationsFilter) : Prop :=
  (containsText f = None \/ containsText f = Some EmptyString)
  /\ createdAfter f = None.

End Routes.

End NotificationsRoutes.

(** ** Two more routes of the orchestrator router, and the v2 overview *)

Module OrchestratorRoutes.

Import Orchestrator.

(** The argument object of [sonataFlowService.executeWorkflow]. *)
Record ExecuteArgs : Type := {
  exec_workflowId : string;
  exec_inputData : JsValue;
  exec_endpoint : string;
  exec_businessKey : option string
}.

(** The collaborators these routes use besides those of [Services]. *)
Record MoreServices : Type := {
  (* sonataFlowService: a [WorkflowExecutionResponse] or [undefined] *)
  executeWorkflow : ExecuteArgs -> Exc JsValue;
  (* workflowService *)
  deleteWorkflowDefinitionById : string -> Exc unit
}.

Inductive RouteCall : Type :=
| RouteGetWorkflowDefinition (workflowId : string)
| RouteFetchWorkflowUri (workflowId : string)
| RouteExecuteWorkflow (args : ExecuteArgs)
| RouteDeleteWorkflowDefinitionById (uri : string).

Inductive Reply : Type :=
| ReplyText (text : string)
| ReplyJson (value : JsValue)
| ReplyEmpty.

Inductive RouteOutcome : Type :=
| RouteThrew (msg : string)
| RouteSent (status : Z) (reply : Reply).

(** The same handler monad as for the input-schema route, over these
    calls and outcomes. *)
Definition R (A : Type) : Type :=
  list RouteCall -> list RouteCall * (RouteOutcome + A).

Definition rbind {A B} (m : R A) (k : A -> R B) : R B :=
  fun log =>
    match m log with
    | (log', inl o) => (log', inl o)
    | (log', inr a) => k a log'
    end.

Definition rcall {A} (c : RouteCall) (r : Exc A) : R A :=
  fun log =>
    (log ++ [c],
     match r with
     | Throw msg => inl (RouteThrew msg)
     | Return a => inr a
     end).

Definition rthrow {A} (msg : string) : R A :=
  fun log => (log, inl (RouteThrew msg)).

Definition rrespond {A} (status : Z) (reply : Reply) : R A :=
  fun log => (log, inl (RouteSent status reply)).

Definition rrun (m : R Empty_set) : list RouteCall * RouteOutcome :=
  match m [] with
  | (log, inl o) => (log, o)
  | (log, inr e) => match e with end
  end.

Notation "x <~ m ;; k" := (rbind m (fun x => k))
  (at level 61, m at next level, right associativity).

Section Routes.

Variable Schema : Type.

(** [router.post('/workflows/:workflowId/execute', ..)]; [businessKey]
    is the query parameter as [extractQueryParamV1] returns it and
    [body] is [req.body]. *)
Definition executeRoute (services : Services Schema) (more : MoreServices)
    (workflowId : string) (businessKey : option string) (body : JsValue)
  : R Empty_set :=
  definition <~
    rcall (RouteGetWorkflowDefinition workflowId)
          (getWorkflowDefinition services workflowId) ;;
  match serviceUrl definition with
  | None =>
      rthrow ("ServiceURL is not defined for workflow " ++ workflowId)%string
  | Some url =>
  if negb (truthy_string url)
  then
    rthrow ("ServiceURL is not defined for workflow " ++ workflowId)%string
  else
  let args := {| exec_workflowId := workflowId;
                 exec_inputData := body;
                 exec_endpoint := url;
                 exec_businessKey := businessKey |} in
  executionResponse <~
    rcall (RouteExecuteWorkflow args) (executeWorkflow more args) ;;
  if negb (truthy executionResponse)
  then
    rrespond 500 (ReplyText ("Couldn't execute workflow " ++ workflowId)%string)
  else rrespond 200 (ReplyJson executionResponse)
  end.

(** [router.delete('/workflows/:workflowId', ..)]. *)
Definition deleteRoute (services : Services Schema) (more : MoreServices)
    (workflowId : string) : R Empty_set :=
  uri <~
    rcall (RouteFetchWorkflowUri workflowId)
          (fetchWorkflowUri services workflowId) ;;
  match uri with
  | None =>
      rrespond 500
        (ReplyText ("Couldn't fetch workflow uri " ++ workflowId)%string)
  | Some uri =>
  if negb (truthy_string uri)
  then
    rrespond 500
      (ReplyText ("Couldn't fetch workflow uri " ++ workflowId)%string)
  else
  _ <~
    rcall (RouteDeleteWorkflowDefinitionById uri)
          (deleteWorkflowDefinitionById more uri) ;;
  rrespond 200 ReplyEmpty
  end.

End Routes.

(** *** [V2.getWorkflowOverview] *)

Record PaginationInfo : Type := {
  pg_limit : Z;
  pg_offset : Z;
  totalCount : Z
}.

Section V2.

(** [WorkflowOverview] and [WorkflowOverviewDTO], and the mapping
    between them ([mapToWorkflowOverviewDTO] of [./mapping/V2Mappings]). *)
Variable WorkflowOverview WorkflowOverviewDTO : Type.
Variable mapToWorkflowOverviewDTO : WorkflowOverview -> WorkflowOverviewDTO.

(** [WorkflowOverviewListResult]: its [items] may be [undefined]. *)
Record WorkflowOverviewListResult : Type := {
  items : option (list WorkflowOverview)
}.

Record WorkflowOverviewListResultDTO : Type := {
  overviews : list WorkflowOverviewDTO;
  paginationInfo : PaginationInfo
}.

(** [overviewsV1] is what [V1.getWorkflowOverview] resolves or rejects
    with.  [overviewsV1.items.map(..)] is evaluated first, so an
    [undefined] [items] is a [TypeError] there. *)
Definition getWorkflowOverview (overviewsV1 : Exc WorkflowOverviewListResult)
  : Exc WorkflowOverviewListResultDTO :=
  match overviewsV1 with
  | Throw msg => Throw msg
  | Return overviewsV1 =>
      match items overviewsV1 with
      | None => Throw "TypeError: overviewsV1.items is undefined"
      | Some list =>
          Return
            {| overviews := map mapToWorkflowOverviewDTO list;
               paginationInfo :=
                 {| pg_limit := 0;
                    pg_offset := 0;
                    totalCount :=
                      match items overviewsV1 with
                      | Some list => Z.of_nat (List.length list)
                      | None => 0
                      end |} |}
      end
  end.

End V2.

End OrchestratorRoutes.

(** ** Identity and permission checks of the notifications API *)

Module NotificationsApi.

Import Notifications.

Inductive ApiError : Type :=
| AuthenticationError (msg : string)
| NotAllowedError (msg : string)
| OtherError (msg : string).

(** The result of awaiting something that may reject with a typed
    error. *)
Inductive ApiResult (A : Type) : Type :=
| ApiThrow (e : ApiError)
| ApiReturn (a : A).

Arguments ApiThrow {A} e.
Arguments ApiReturn {A} a.

(** [identityResponse.identity]. *)
Record BackstageIdentity : Type := { userEntityRef : option string }.

Inductive AuthorizeResult : Type := ALLOW | DENY | CONDITIONAL.

(** [s.slice(n)] for [0 <= n]. *)
Fixpoint slice (n : nat) (s : string) : string :=
  match n, s with
  | O, _ => s
  | S _, EmptyString => EmptyString
  | S k, String _ rest => slice k rest
  end.

Section Api.

(** [DefaultServiceUser] of [./types]. *)
Variable DefaultServiceUser : string.

(** [getBearerTokenFromAuthorizationHeader] of
    [@backstage/plugin-auth-node]. *)
Variable getBearerTokenFromAuthorizationHeader :
  option string -> option string.

(** [getLoggedInUser].  [identityResponse] is what
    [identity.getIdentity] resolves or rejects with, [authorization] the
    request's header and [authenticate] is [tokenManager.authenticate].
    The first component lists the tokens passed to [authenticate]. *)
Definition getLoggedInUser
    (identityResponse : ApiResult (option BackstageIdentity))
    (authorization : option string)
    (authenticate : string -> ApiResult unit)
    (notificationsServiceToServiceAuthEnabled : bool)
  : list string * ApiResult string :=
  match identityResponse with
  | ApiThrow e => ([], ApiThrow e)
  | ApiReturn (Some identity) =>
      match userEntityRef identity with
      | Some author =>
          if truthy_string author
          then
            let author :=
              if String.prefix "user:" author
              then slice (String.length "user:") author
              else author in
            ([], ApiReturn author)
          else
            ([], ApiThrow (AuthenticationError
               ("Missing valid authentication data or the user is not in "
                ++ "the Catalog.")))
      | None =>
          ([], ApiThrow (AuthenticationError
             ("Missing valid authentication data or the user is not in "
              ++ "the Catalog.")))
      end
  | ApiReturn None =>
      if notificationsServiceToServiceAuthEnabled
      then
        match getBearerTokenFromAuthorizationHeader authorization with
        | Some token =>
            if truthy_string token
            then
              match authenticate token with
              | ApiThrow e => ([token], ApiThrow e)
              | ApiReturn _ => ([token], ApiReturn DefaultServiceUser)
              end
            else
              ([], ApiThrow (AuthenticationError
                 "Missing authorization token in the request."))
        | None =>
            ([], ApiThrow (AuthenticationError
               "Missing authorization token in the request."))
        end
      else ([], ApiReturn DefaultServiceUser)
  end.



End Api.

End NotificationsApi.

(** ** Sample collaborators for the other routes and the API checks *)

Module Samples.

Import DataInputSchemaModel Orchestrator OrchestratorRoutes.
Import Notifications NotificationsRoutes NotificationsApi Inbox.

(** An engine that starts every execution as [run-1] and a workflow
    service that deletes whatever it is asked to. *)
Definition moreServices : MoreServices :=
  {| executeWorkflow := fun _ => Return (JObj [("id", JStr "run-1")]);
     deleteWorkflowDefinitionById := fun _ => Return tt |}.

Definition orderBody : JsValue := JObj [("name", JStr "Ann")].

Definition orderArgs : ExecuteArgs :=
  {| exec_workflowId := "onboard";
     exec_inputData := orderBody;
     exec_endpoint := "http://onboard.svc";
     exec_businessKey := Some "order-7" |}.

(** A first page of overviews, as strings mapped to their lengths. *)
Definition overviewPage : WorkflowOverviewListResult string :=
  {| items := Some ["onboard"; "offboard"; "audit"] |}.

(** [Bearer <token>] headers, a token manager that knows [s3cret], and
    a policy that denies [default/guest] everything. *)
Definition bearerToken (authorization : option string) : option string :=
  match authorization with
  | Some header =>
      if String.prefix "Bearer " header then Some (slice 7 header) else None
  | None => None
  end.

Definition authenticate (token : string) : ApiResult unit :=
  if String.eqb token "s3cret"
  then ApiReturn tt
  else ApiThrow (AuthenticationError "Invalid token").

Definition guest : ApiResult (option BackstageIdentity) :=
  ApiReturn (Some {| userEntityRef := Some "user:default/guest" |}).

Definition ann : ApiResult (option BackstageIdentity) :=
  ApiReturn (Some {| userEntityRef := Some "user:default/ann" |}).

Definition allowAll (_ : string) (_ : option string)
  : ApiResult (list AuthorizeResult) :=
  ApiReturn [ALLOW].


(** The [onboard] deployment with a data index that is down. *)
Definition downServices : Services InputSchemaDefinition :=
  {| getWorkflowDefinition := getWorkflowDefinition Deployment.onboardServices;
     fetchProcessInstanceVariables := fun _ => Throw "ECONNREFUSED";
     fetchWorkflowDefinition :=
       fetchWorkflowDefinition Deployment.onboardServices;
     fetchWorkflowUri := fetchWorkflowUri Deployment.onboardServices;
     fetchWorkflowInfo := fetchWorkflowInfo Deployment.onboardServices;
     parseComposition := parseComposition Deployment.onboardServices;
     extractInitialStateFromWorkflowData :=
       extractInitialStateFromWorkflowData Deployment.onboardServices |}.

(** A form whose second member is malformed. *)
Definition brokenForm : InputSchemaDefinition :=
  ComposedSchema [Some Deployment.personal; None].

(** Two requests that differ only in their targets. *)
Definition toAnn : CreateNotificationRequest :=
  request (Some ["ann"]) None.

Definition toAdmins : CreateNotificationRequest :=
  request None (Some ["admins"]).

Definition toStrangers : CreateNotificationRequest :=
  request (Some ["bob"]) (Some ["admins"; "ops"]).

End Samples.

(** * Properties of the input-schema route *)

Section RouteFacts.

Import Orchestrator.

Variable Schema : Type.
Variable key : string.
Variable services : Services Schema.
Variable workflowId : string.

Lemma truthy_string_false (s : string) :
  truthy_string s = false <-> s = EmptyString.
Proof. destruct s; simpl; split; congruence. Qed.

(** The lookup of one role never ends the request when it completes. *)
Lemma fetchVariablesIf_lookup (id : option string) (data : JsValue) :
  Lookup key services id data ->
  forall log, exists log' vars,
    fetchVariablesIf services id log = (log', inr vars)
    /\ workflowDataOf key vars = data.
Proof.
  intros H log. destruct H as [ | i Hi | i vars Hi Hfetch ]; simpl.
  - exists log, None. split; reflexivity.
  - rewrite Hi. exists log, None. split; reflexivity.
  - rewrite Hi. unfold call. rewrite Hfetch. eauto.
Qed.

(** Once parsing succeeds and both lookups and extractions complete, the
    route answers 200 with the state described by [resolvedState]. *)
Lemma route_resolves (instanceId assessmentInstanceId : option string)
    (url : string) (def : WorkflowDefinition) (u : string) (schema : Schema)
    (fragments : list Schema) (pdata adata : JsValue)
    (pst ast : option (list JsonObject)) :
  ReachesParse services workflowId url def u schema ->
  parseComposition services schema = Return fragments ->
  Lookup key services instanceId pdata ->
  Extracted services fragments pdata pst ->
  Lookup key services assessmentInstanceId adata ->
  Extracted services fragments adata ast ->
  snd (run (inputSchemaRoute key services workflowId
              instanceId assessmentInstanceId)) =
  Sent 200
    (Json {| workflowItem := {| uri := u; definition := def |};
             schemas := fragments;
             initialState := resolvedState pst ast |}).
Proof.
  intros [[(wd & Hwd & Hurl) (Hu & Hdef & Huri & Htu)]
          (Hdis & info & Hinfo & Hschema)] Hparse Hlp Hep Hla Hea.
  unfold run, inputSchemaRoute, bind, call.
  rewrite Hwd, Hurl, Hu, Hdef, Huri, Htu, Hdis, Hinfo, Hschema, Hparse.
  cbn [negb].
  match goal with
  | |- context [fetchVariablesIf services instanceId ?l] =>
      destruct (fetchVariablesIf_lookup Hlp l) as (log1 & pvars & Hpf & Hpd)
  end.
  rewrite Hpf, Hpd.
  destruct Hep as [pdata Hpt | pdata pstate Hpt Hpx]; rewrite Hpt.
  - unfold ret at 1.
    destruct (fetchVariablesIf_lookup Hla log1) as (log2 & avars & Haf & Had).
    rewrite Haf, Had.
    destruct Hea as [adata Hat | adata astate Hat Hax]; rewrite Hat.
    + reflexivity.
    + rewrite Hax. reflexivity.
  - rewrite Hpx.
    destruct (fetchVariablesIf_lookup Hla
                (log1 ++ [CallExtractInitialState pdata]))
      as (log2 & avars & Haf & Had).
    rewrite Haf, Had.
    destruct Hea as [adata Hat | adata astate Hat Hax]; rewrite Hat.
    + reflexivity.
    + rewrite Hax. reflexivity.
Qed.

Lemma is_undefined_false (v : JsValue) :
  negb (is_undefined v) = true <-> v <> JUndefined.
Proof. destruct v; simpl; split; congruence. Qed.

(** The flattened key list holds exactly the keys with a defined value
    in some fragment. *)
Lemma in_readonlyKeysOf (items : list JsonObject) (k : string) :
  In k (readonlyKeysOf items) <->
  exists item, In item items /\ hasDefined k item.
Proof.
  unfold readonlyKeysOf, hasDefined, definedKeys. rewrite in_concat. split.
  - intros (keys & Hkeys & Hk). apply in_map_iff in Hkeys.
    destruct Hkeys as (item & <- & Hitem). apply filter_In in Hk.
    destruct Hk as [Hin Hdef]. exists item. split; [exact Hitem | ].
    split; [exact Hin | now apply is_undefined_false].
  - intros (item & Hitem & Hin & Hdef).
    exists (filter (fun key0 => negb (is_undefined (get_prop key0 item)))
                   (object_keys item)).
    split.
    + apply in_map_iff. exists item. split; [reflexivity | exact Hitem].
    + apply filter_In. split; [exact Hin | now apply is_undefined_false].
Qed.

(** C1 (as the code has it): when the primary extraction returns a
    state with at least one fragment, the response carries that state
    as [values], whatever the assessment holds.  [readonlyKeys] is empty
    when no assessment data is present; when it is present the list is
    the assessment's defined keys, even though the fallback was not
    taken. *)
Theorem C1_primary_state_kept (instanceId assessmentInstanceId : option string)
    (url : string) (def : WorkflowDefinition) (u : string) (schema : Schema)
    (fragments : list Schema) (pdata adata : JsValue)
    (primary : list JsonObject) (ast : option (list JsonObject)) :
  ReachesParse services workflowId url def u schema ->
  parseComposition services schema = Return fragments ->
  Lookup key services instanceId pdata ->
  truthy pdata = true ->
  extractInitialStateFromWorkflowData services pdata fragments
    = Return primary ->
  primary <> [] ->
  Lookup key services assessmentInstanceId adata ->
  Extracted services fragments adata ast ->
  exists r,
    responseOf (snd (run (inputSchemaRoute key services workflowId
                            instanceId assessmentInstanceId))) = Some r
    /\ values (initialState r) = primary
    /\ readonlyKeys (initialState r) =
         match ast with
         | Some assessment => readonlyKeysOf assessment
         | None => []
         end.
Proof.
  intros Hreach Hparse Hlp Hpt Hpx Hne Hla Hea.
  rewrite (route_resolves Hreach Hparse Hlp (@ExtractedState _ _ _ _ _ Hpt Hpx)
             Hla Hea).
  eexists. split; [reflexivity | ].
  destruct primary as [ | item rest ]; [congruence | ].
  destruct ast; simpl; split; reflexivity.
Qed.

(** C2 (as the code has it): once parsing succeeded and extraction
    keeps one entry per fragment, [values] has as many entries as
    [schemas] whenever the primary or the assessment workflow data is
    present; when neither is, [values] is the empty list whatever the
    number of fragments. *)
Theorem C2_values_length (instanceId assessmentInstanceId : option string)
    (url : string) (def : WorkflowDefinition) (u : string) (schema : Schema)
    (fragments : list Schema) (pdata adata : JsValue)
    (pst ast : option (list JsonObject)) :
  ReachesParse services workflowId url def u schema ->
  parseComposition services schema = Return fragments ->
  Lookup key services instanceId pdata ->
  Extracted services fragments pdata pst ->
  Lookup key services assessmentInstanceId adata ->
  Extracted services fragments adata ast ->
  (forall data st,
      extractInitialStateFromWorkflowData services data fragments = Return st ->
      List.length st = List.length fragments) ->
  exists r,
    responseOf (snd (run (inputSchemaRoute key services workflowId
                            instanceId assessmentInstanceId))) = Some r
    /\ schemas r = fragments
    /\ (pst <> None \/ ast <> None ->
        List.length (values (initialState r)) = List.length (schemas r))
    /\ (pst = None -> ast = None -> values (initialState r) = []).
Proof.
  intros Hreach Hparse Hlp Hep Hla Hea Hlen.
  rewrite (route_resolves Hreach Hparse Hlp Hep Hla Hea).
  eexists. split; [reflexivity | ]. split; [reflexivity | ]. simpl.
  assert (Hp : forall st, pst = Some st ->
                          List.length st = List.length fragments).
  { intros st ->. inversion Hep; subst. eauto. }
  assert (Ha : forall st, ast = Some st ->
                          List.length st = List.length fragments).
  { intros st ->. inversion Hea; subst. eauto. }
  split.
  - intros Hsome. destruct ast as [a | ]; simpl.
    + destruct pst as [p | ]; simpl.
      * destruct (Nat.eqb_spec (List.length p) 0);
          [now apply Ha | now apply Hp].
      * now apply Ha.
    + destruct pst as [p | ]; [now apply Hp | ]. destruct Hsome; congruence.
  - intros -> ->. reflexivity.
Qed.

(** C3 (as the code has it): when the primary state has no entries at
    all (no primary workflow data, or an extraction that returned the
    empty list) and assessment workflow data is present, [values] is the
    assessment state and [readonlyKeys] lists exactly the field names
    with a defined value in some fragment of it. *)
Theorem C3_assessment_fallback (instanceId assessmentInstanceId : option string)
    (url : string) (def : WorkflowDefinition) (u : string) (schema : Schema)
    (fragments : list Schema) (pdata adata : JsValue)
    (pst : option (list JsonObject)) (assessment : list JsonObject) :
  ReachesParse services workflowId url def u schema ->
  parseComposition services schema = Return fragments ->
  Lookup key services instanceId pdata ->
  Extracted services fragments pdata pst ->
  (pst = None \/ pst = Some []) ->
  Lookup key services assessmentInstanceId adata ->
  truthy adata = true ->
  extractInitialStateFromWorkflowData services adata fragments
    = Return assessment ->
  exists r,
    responseOf (snd (run (inputSchemaRoute key services workflowId
                            instanceId assessmentInstanceId))) = Some r
    /\ values (initialState r) = assessment
    /\ readonlyKeys (initialState r) = readonlyKeysOf assessment
    /\ forall k, In k (readonlyKeys (initialState r)) <->
                 exists item, In item assessment /\ hasDefined k item.
Proof.
  intros Hreach Hparse Hlp Hep Hempty Hla Hat Hax.
  rewrite (route_resolves Hreach Hparse Hlp Hep Hla
             (@ExtractedState _ _ _ _ _ Hat Hax)).
  eexists. split; [reflexivity | ]. simpl.
  split; [ | split; [reflexivity | apply in_readonlyKeysOf] ].
  destruct Hempty as [-> | ->]; reflexivity.
Qed.

(** C4 (as the code has it): when the definition declares an input
    schema but the runtime info comes back without [inputSchema], the
    route answers 500 with a message naming the workflow, after four
    collaborator calls and without parsing anything. *)
Theorem C4_missing_runtime_schema_is_500
    (instanceId assessmentInstanceId : option string)
    (url : string) (def : WorkflowDefinition) (u : string)
    (info : WorkflowInfo Schema) :
  DefinitionFetched services workflowId url def u ->
  truthy_dataInputSchema (dataInputSchema def) = true ->
  fetchWorkflowInfo services workflowId url = Return (Some info) ->
  inputSchema info = None ->
  run (inputSchemaRoute key services workflowId
         instanceId assessmentInstanceId) =
  ([CallGetWorkflowDefinition workflowId;
    CallFetchWorkflowDefinition workflowId;
    CallFetchWorkflowUri workflowId;
    CallFetchWorkflowInfo workflowId url],
   Sent 500
     (Text ("Couldn't fetch workflow input schema " ++ workflowId)%string)).
Proof.
  intros [(wd & Hwd & Hurl) (Hu & Hdef & Huri & Htu)] Hdis Hinfo Hschema.
  unfold run, inputSchemaRoute, bind, call.
  rewrite Hwd, Hurl, Hu, Hdef, Huri, Htu, Hdis, Hinfo, Hschema.
  reflexivity.
Qed.

(** C5: when the fetched definition declares no input schema, the route
    answers 200 at once with empty [schemas], empty [values] and empty
    [readonlyKeys]; only the three lookups of the first step were
    called, so nothing was parsed, extracted or merged. *)
Theorem C5_no_declared_schema
    (instanceId assessmentInstanceId : option string)
    (url : string) (def : WorkflowDefinition) (u : string) :
  DefinitionFetched services workflowId url def u ->
  dataInputSchema def = None ->
  run (inputSchemaRoute key services workflowId
         instanceId assessmentInstanceId) =
  ([CallGetWorkflowDefinition workflowId;
    CallFetchWorkflowDefinition workflowId;
    CallFetchWorkflowUri workflowId],
   Sent 200
     (Json {| workflowItem := {| uri := u; definition := def |};
              schemas := [];
              initialState := {| values := []; readonlyKeys := [] |} |})).
Proof.
  intros [(wd & Hwd & Hurl) (Hu & Hdef & Huri & Htu)] Hnone.
  unfold run, inputSchemaRoute, bind, call.
  rewrite Hwd, Hurl, Hu, Hdef, Huri, Htu, Hnone.
  reflexivity.
Qed.

(** C6: once parsing succeeded, a role whose lookup leaves no usable
    workflow data does not fail the request.  The route answers 200;
    with the primary data absent the primary state is empty, so
    [values] is the assessment state if there is one and the empty list
    otherwise; with the assessment data absent [readonlyKeys] is empty
    and [values] is the primary state. *)
Theorem C6_absent_instance_data_not_fatal
    (instanceId assessmentInstanceId : option string)
    (url : string) (def : WorkflowDefinition) (u : string) (schema : Schema)
    (fragments : list Schema) (pdata adata : JsValue)
    (pst ast : option (list JsonObject)) :
  ReachesParse services workflowId url def u schema ->
  parseComposition services schema = Return fragments ->
  Lookup key services instanceId pdata ->
  Extracted services fragments pdata pst ->
  Lookup key services assessmentInstanceId adata ->
  Extracted services fragments adata ast ->
  truthy pdata = false \/ truthy adata = false ->
  failed (snd (run (inputSchemaRoute key services workflowId
                      instanceId assessmentInstanceId))) = false
  /\ exists r,
       responseOf (snd (run (inputSchemaRoute key services workflowId
                               instanceId assessmentInstanceId))) = Some r
       /\ schemas r = fragments
       /\ (truthy pdata = false ->
           values (initialState r) =
             match ast with Some assessment => assessment | None => [] end)
       /\ (truthy adata = false ->
           readonlyKeys (initialState r) = []
           /\ values (initialState r) =
                match pst with Some primary => primary | None => [] end).
Proof.
  intros Hreach Hparse Hlp Hep Hla Hea _.
  rewrite (route_resolves Hreach Hparse Hlp Hep Hla Hea).
  split; [reflexivity | ].
  eexists. split; [reflexivity | ]. split; [reflexivity | ]. simpl. split.
  - intros Hpt. inversion Hep; subst; [ | congruence ].
    destruct ast; reflexivity.
  - intros Hat. inversion Hea; subst; [ | congruence ].
    split; reflexivity.
Qed.

(** C7: when the data index has no service url for the workflow, or the
    engine returns no definition, or no uri, the request fails: it ends
    in an uncaught error or in status 500 with a text message.  With no
    service url the error [ServiceUrl is not defined for workflow ..] is
    thrown right after the first lookup: no other collaborator is
    called.  With a service url, a missing definition is answered with
    status 500 and [Couldn't fetch workflow definition ..] after two
    calls, and a missing uri with status 500 and [Couldn't fetch
    workflow uri ..] after three. *)
Theorem C7_missing_definition_fails
    (instanceId assessmentInstanceId : option string) :
  NoEndpoint services workflowId
  \/ NoDefinition services workflowId
  \/ NoUri services workflowId ->
  ((exists msg,
      snd (run (inputSchemaRoute key services workflowId
                  instanceId assessmentInstanceId)) = Threw msg)
   \/ (exists text,
         snd (run (inputSchemaRoute key services workflowId
                     instanceId assessmentInstanceId))
         = Sent 500 (Text text)))
  /\ (NoEndpoint services workflowId ->
      run (inputSchemaRoute key services workflowId
             instanceId assessmentInstanceId) =
      ([CallGetWorkflowDefinition workflowId],
       Threw ("ServiceUrl is not defined for workflow " ++ workflowId)%string))
  /\ (forall wd url,
        getWorkflowDefinition services workflowId = Return wd ->
        serviceUrl wd = Some url ->
        truthy_string url = true ->
        (NoDefinition services workflowId ->
         run (inputSchemaRoute key services workflowId
                instanceId assessmentInstanceId) =
         ([CallGetWorkflowDefinition workflowId;
           CallFetchWorkflowDefinition workflowId],
          Sent 500
            (Text ("Couldn't fetch workflow definition "
                   ++ workflowId)%string)))
        /\ (forall def,
              fetchWorkflowDefinition services workflowId
                = Return (Some def) ->
              NoUri services workflowId ->
              run (inputSchemaRoute key services workflowId
                     instanceId assessmentInstanceId) =
              ([CallGetWorkflowDefinition workflowId;
                CallFetchWorkflowDefinition workflowId;
                CallFetchWorkflowUri workflowId],
               Sent 500
                 (Text ("Couldn't fetch workflow uri "
                        ++ workflowId)%string)))).
Proof.
  intros Hmissing. split; [ | split ].
  - unfold run, inputSchemaRoute, bind, call, throw, respond.
    destruct (getWorkflowDefinition services workflowId) as [ m | wd ] eqn:Hwd;
      [ left; eexists; reflexivity | ].
    destruct (serviceUrl wd) as [ url | ] eqn:Hurl;
      [ | left; eexists; reflexivity ].
    destruct (truthy_string url) eqn:Hu; [ | left; eexists; reflexivity ].
    cbn [negb].
    destruct (fetchWorkflowDefinition services workflowId)
      as [ m | [ def | ] ] eqn:Hdef;
      [ left; eexists; reflexivity | | right; eexists; reflexivity ].
    destruct (fetchWorkflowUri services workflowId)
      as [ m | [ u | ] ] eqn:Huri;
      [ left; eexists; reflexivity | | right; eexists; reflexivity ].
    destruct (truthy_string u) eqn:Htu; [ | right; eexists; reflexivity ].
    exfalso. destruct Hmissing as [ (wd' & Hwd' & Hno) | [ Hno | Hno ] ].
    + assert (wd' = wd) by congruence. subst wd'.
      destruct Hno as [ Hno | Hno ]; rewrite Hurl in Hno; [discriminate | ].
      injection Hno as ->. discriminate.
    + unfold NoDefinition in Hno. congruence.
    + destruct Hno as [ Hno | Hno ]; rewrite Huri in Hno; [discriminate | ].
      injection Hno as ->. discriminate.
  - intros (wd & Hwd & Hno).
    unfold run, inputSchemaRoute, bind, call, throw.
    rewrite Hwd. destruct Hno as [ -> | -> ]; reflexivity.
  - intros wd url Hwd Hurl Hu. split.
    + intros Hdef. unfold NoDefinition in Hdef.
      unfold run, inputSchemaRoute, bind, call, respond.
      rewrite Hwd, Hurl, Hu, Hdef. reflexivity.
    + intros def Hdef Huri.
      unfold run, inputSchemaRoute, bind, call, respond.
      rewrite Hwd, Hurl, Hu, Hdef.
      destruct Huri as [ -> | -> ]; reflexivity.
Qed.

End RouteFacts.

(** * The route on the [onboard] deployment *)

Section OnboardFacts.

Import DataInputSchemaModel Orchestrator Deployment.

(** The modelled extraction keeps one entry per fragment. *)
Lemma extract_length (data : JsValue) (fragments : list InputSchemaDefinition)
    (st : list JsonObject) :
  DataInputSchemaModel.extractInitialStateFromWorkflowData data fragments
    = Return st ->
  List.length st = List.length fragments.
Proof.
  unfold DataInputSchemaModel.extractInitialStateFromWorkflowData.
  destruct data; intros H; injection H as <-; apply length_map.
Qed.

Lemma onboard_reaches_parse :
  ReachesParse onboardServices "onboard" "http://onboard.svc"
    onboardDefinition "onboard.sw.yaml" twoStepForm.
Proof.
  repeat split; try reflexivity.
  - eexists. split; reflexivity.
  - eexists. split; reflexivity.
Qed.

Lemma onboard_lookup (instanceId : string) :
  truthy_string instanceId = true ->
  Lookup workflowDataKey onboardServices (Some instanceId)
    (workflowDataOf workflowDataKey (instanceVariablesOf instanceId)).
Proof. intros H. now apply LookupFetched. Qed.

Lemma onboard_extracted (props : JsonObject) :
  Extracted onboardServices onboardFragments (JObj props)
    (Some (map (extractFragment props) onboardFragments)).
Proof. apply ExtractedState; reflexivity. Qed.

(** C1 on the deployment: [i-ann] keeps its own state and the keys of
    [a-full] are read-only. *)
Lemma C1_primary_state_kept_witness :
  exists r,
    responseOf (snd (resolve onboardServices (Some "i-ann") (Some "a-full")))
      = Some r
    /\ values (initialState r) = [[("name", JStr "Ann")]; []]
    /\ readonlyKeys (initialState r) = ["name"; "age"; "email"].
Proof.
  apply (@C1_primary_state_kept _ workflowDataKey onboardServices "onboard"
           (Some "i-ann") (Some "a-full") _ _ _ _ onboardFragments
           (JObj [("name", JStr "Ann")])
           (JObj [("name", JStr "Ann"); ("age", JNum 30);
                  ("email", JStr "a@x.com")])
           [[("name", JStr "Ann")]; []]
           (Some [[("name", JStr "Ann"); ("age", JNum 30)];
                  [("email", JStr "a@x.com")]])
           onboard_reaches_parse).
  - reflexivity.
  - now apply (onboard_lookup "i-ann").
  - reflexivity.
  - reflexivity.
  - discriminate.
  - now apply (onboard_lookup "a-full").
  - apply (onboard_extracted
             [("name", JStr "Ann"); ("age", JNum 30);
              ("email", JStr "a@x.com")]).
Defined.

(** C1 fails as stated: instance [i-ann] has a non-empty first fragment
    and is kept as [values], yet [readonlyKeys] is not empty. *)
Lemma C1_counterexample :
  exists r,
    responseOf (snd (resolve onboardServices (Some "i-ann") (Some "a-full")))
      = Some r
    /\ values (initialState r) = [[("name", JStr "Ann")]; []]
    /\ readonlyKeys (initialState r) = ["name"; "age"; "email"]
    /\ readonlyKeys (initialState r) <> [].
Proof.
  eexists. split; [reflexivity | ].
  split; [reflexivity | ]. split; [reflexivity | discriminate].
Qed.

(** C2 on the deployment: with both instances known, two fragments and
    two value entries. *)
Lemma C2_values_length_witness :
  exists r,
    responseOf (snd (resolve onboardServices (Some "i-ann") (Some "a-full")))
      = Some r
    /\ schemas r = onboardFragments
    /\ (Some [[("name", JStr "Ann")]; []] <> None
        \/ Some [[("name", JStr "Ann"); ("age", JNum 30)];
                 [("email", JStr "a@x.com")]] <> None ->
        List.length (values (initialState r)) = List.length (schemas r))
    /\ (Some [[("name", JStr "Ann")]; []] = None ->
        Some [[("name", JStr "Ann"); ("age", JNum 30)];
              [("email", JStr "a@x.com")]] = None ->
        values (initialState r) = []).
Proof.
  apply (@C2_values_length _ workflowDataKey onboardServices "onboard"
           (Some "i-ann") (Some "a-full") _ _ _ _ onboardFragments
           (JObj [("name", JStr "Ann")])
           (JObj [("name", JStr "Ann"); ("age", JNum 30);
                  ("email", JStr "a@x.com")])
           _ _ onboard_reaches_parse).
  - reflexivity.
  - now apply (onboard_lookup "i-ann").
  - apply (onboard_extracted [("name", JStr "Ann")]).
  - now apply (onboard_lookup "a-full").
  - apply (onboard_extracted
             [("name", JStr "Ann"); ("age", JNum 30);
              ("email", JStr "a@x.com")]).
  - intros data st. apply extract_length.
Defined.

(** C2 fails as stated: with an instance id the index does not know and
    no assessment id, the response lists two fragments and no values. *)
Lemma C2_counterexample :
  exists r,
    responseOf (snd (resolve onboardServices (Some "i-unknown") None)) = Some r
    /\ schemas r = onboardFragments
    /\ values (initialState r) = []
    /\ List.length (values (initialState r)) <> List.length (schemas r).
Proof.
  eexists. split; [reflexivity | ].
  split; [reflexivity | ]. split; [reflexivity | discriminate].
Qed.

(** C3 on the deployment: no primary instance, values fall back to
    [a-partial]. *)
Lemma C3_assessment_fallback_witness :
  exists r,
    responseOf (snd (resolve onboardServices None (Some "a-partial"))) = Some r
    /\ values (initialState r)
       = [[("age", JNum 30)]; [("email", JStr "a@x.com")]]
    /\ readonlyKeys (initialState r)
       = readonlyKeysOf [[("age", JNum 30)]; [("email", JStr "a@x.com")]]
    /\ forall k,
         In k (readonlyKeys (initialState r)) <->
         exists item,
           In item [[("age", JNum 30)]; [("email", JStr "a@x.com")]]
           /\ hasDefined k item.
Proof.
  apply (@C3_assessment_fallback _ workflowDataKey onboardServices "onboard"
           None (Some "a-partial") _ _ _ _ onboardFragments
           JUndefined
           (JObj [("age", JNum 30); ("email", JStr "a@x.com")])
           None _ onboard_reaches_parse).
  - reflexivity.
  - apply LookupNoId.
  - apply ExtractedSkipped. reflexivity.
  - left. reflexivity.
  - now apply (onboard_lookup "a-partial").
  - reflexivity.
  - reflexivity.
Defined.

(** C3 fails as stated: instance [i-ticket] has workflow data but none
    of the form's fields, so every fragment of the primary state is
    empty; the assessment has defined fields, yet [values] stays the
    all-empty primary state. *)
Lemma C3_counterexample :
  exists r,
    responseOf (snd (resolve onboardServices (Some "i-ticket")
                       (Some "a-partial"))) = Some r
    /\ DataInputSchemaModel.extractInitialStateFromWorkflowData
         (JObj [("age", JNum 30); ("email", JStr "a@x.com")]) (schemas r)
       = Return [[("age", JNum 30)]; [("email", JStr "a@x.com")]]
    /\ values (initialState r) = [[]; []]
    /\ values (initialState r)
       <> [[("age", JNum 30)]; [("email", JStr "a@x.com")]]
    /\ readonlyKeys (initialState r) = ["age"; "email"].
Proof.
  eexists. split; [reflexivity | ]. split; [reflexivity | ].
  split; [reflexivity | ]. split; [discriminate | reflexivity].
Qed.

(** C4 on the deployment: runtime info without an input schema. *)
Lemma C4_missing_runtime_schema_is_500_witness :
  resolve (services (Some "http://onboard.svc") (Some onboardDefinition) None)
          (Some "i-ann") None =
  ([CallGetWorkflowDefinition "onboard";
    CallFetchWorkflowDefinition "onboard";
    CallFetchWorkflowUri "onboard";
    CallFetchWorkflowInfo "onboard" "http://onboard.svc"],
   Sent 500 (Text "Couldn't fetch workflow input schema onboard")).
Proof.
  apply (@C4_missing_runtime_schema_is_500 _ workflowDataKey
           (services (Some "http://onboard.svc") (Some onboardDefinition) None)
           "onboard" (Some "i-ann") None "http://onboard.svc"
           onboardDefinition "onboard.sw.yaml"
           {| info_id := "onboard"; serviceUrl := Some "http://onboard.svc";
              inputSchema := None |}).
  - repeat split; try reflexivity. eexists. split; reflexivity.
  - reflexivity.
  - reflexivity.
  - reflexivity.
Defined.

(** C4 fails as stated: the definition declares an input schema, the
    runtime info has none, and the request ends with status 500. *)
Lemma C4_counterexample :
  truthy_dataInputSchema (dataInputSchema onboardDefinition) = true
  /\ snd (resolve (services (Some "http://onboard.svc")
                     (Some onboardDefinition) None) None None)
     = Sent 500 (Text "Couldn't fetch workflow input schema onboard")
  /\ failed (snd (resolve (services (Some "http://onboard.svc")
                             (Some onboardDefinition) None) None None))
     = true.
Proof. repeat split. Qed.

(** C5 on the deployment: a definition without [dataInputSchema]. *)
Lemma C5_no_declared_schema_witness :
  resolve (services (Some "http://onboard.svc") (Some plainDefinition)
             (Some twoStepForm))
          (Some "i-ann") (Some "a-full") =
  ([CallGetWorkflowDefinition "onboard";
    CallFetchWorkflowDefinition "onboard";
    CallFetchWorkflowUri "onboard"],
   Sent 200
     (Json {| workflowItem :=
                {| uri := "onboard.sw.yaml"; definition := plainDefinition |};
              schemas := [];
              initialState := {| values := []; readonlyKeys := [] |} |})).
Proof.
  apply (@C5_no_declared_schema _ workflowDataKey
           (services (Some "http://onboard.svc") (Some plainDefinition)
              (Some twoStepForm))
           "onboard" (Some "i-ann") (Some "a-full") "http://onboard.svc"
           plainDefinition "onboard.sw.yaml").
  - repeat split; try reflexivity. eexists. split; reflexivity.
  - reflexivity.
Defined.

(** C6 on the deployment: [i-novars] has variables but no workflow
    data. *)
Lemma C6_absent_instance_data_not_fatal_witness :
  failed (snd (resolve onboardServices (Some "i-novars") (Some "a-partial")))
    = false
  /\ exists r,
       responseOf (snd (resolve onboardServices (Some "i-novars")
                          (Some "a-partial"))) = Some r
       /\ schemas r = onboardFragments
       /\ (truthy JUndefined = false ->
           values (initialState r)
           = [[("age", JNum 30)]; [("email", JStr "a@x.com")]])
       /\ (truthy (JObj [("age", JNum 30); ("email", JStr "a@x.com")])
           = false ->
           readonlyKeys (initialState r) = []
           /\ values (initialState r) = []).
Proof.
  apply (@C6_absent_instance_data_not_fatal _ workflowDataKey onboardServices
           "onboard" (Some "i-novars") (Some "a-partial") _ _ _ _
           onboardFragments JUndefined
           (JObj [("age", JNum 30); ("email", JStr "a@x.com")])
           None
           (Some [[("age", JNum 30)]; [("email", JStr "a@x.com")]])
           onboard_reaches_parse).
  - reflexivity.
  - now apply (onboard_lookup "i-novars").
  - apply ExtractedSkipped. reflexivity.
  - now apply (onboard_lookup "a-partial").
  - apply (onboard_extracted [("age", JNum 30); ("email", JStr "a@x.com")]).
  - left. reflexivity.
Defined.

(** C7 on the deployment: the engine returns no definition. *)
Lemma C7_missing_definition_fails_witness :
  resolve (services (Some "http://onboard.svc") None (Some twoStepForm))
          (Some "i-ann") None =
  ([CallGetWorkflowDefinition "onboard";
    CallFetchWorkflowDefinition "onboard"],
   Sent 500 (Text "Couldn't fetch workflow definition onboard")).
Proof.
  apply (proj1 (proj2 (proj2 (@C7_missing_definition_fails _ workflowDataKey
                  (services (Some "http://onboard.svc") None
                     (Some twoStepForm))
                  "onboard" (Some "i-ann") None
                  (or_intror (or_introl eq_refl))))
           {| info_id := "onboard"; serviceUrl := Some "http://onboard.svc";
              inputSchema := None |}
           "http://onboard.svc" eq_refl eq_refl eq_refl)).
  reflexivity.
Defined.

End OnboardFacts.

(** * Properties of the notification handlers *)

Section NotificationFacts.

Import Notifications NotificationsRoutes.

Variable Entity : Type.
Variable ilike : string -> string -> bool.
Variable defaultId : list Message -> string.
Variable defaultCreated : list Message -> Z.
Variable unsafePaging :
  list Message -> option Z -> option Z -> Exc (list Message).
Variable firstToReject : list string -> nat.

(** The page-parameter guard of [getNotifications], as arithmetic. *)
Lemma paging_guard (pageSize pageNumber : Z) :
  (pageSize <? 0) || (pageNumber <? 0)
  || ((pageSize =? 0) && (pageNumber >? 0))
  || ((pageSize >? 0) && (pageNumber =? 0)) = true
  <-> pageSize < 0 \/ pageNumber < 0
      \/ (pageSize = 0 /\ pageNumber <> 0)
      \/ (pageSize <> 0 /\ pageNumber = 0).
Proof.
  rewrite !orb_true_iff, !andb_true_iff, !Z.ltb_lt, !Z.gtb_lt, !Z.eqb_eq.
  lia.
Qed.

(** [addFilter] only adds predicates. *)
Lemma addFilter_paging (q : Query) (f : NotificationsFilter) :
  q_limit (addFilter ilike q f) = q_limit q
  /\ q_offset (addFilter ilike q f) = q_offset q.
Proof.
  unfold addFilter.
  destruct (containsText f) as [ text | ]; [ destruct (truthy_string text) | ];
    destruct (createdAfter f); split; reflexivity.
Qed.


Lemma runQuery_unpaged (rows : list Message) (f : NotificationsFilter) :
  runQuery unsafePaging rows (addFilter ilike selectAll f)
  = Return (matchingRows ilike f rows).
Proof.
  unfold runQuery, matchingRows.
  destruct (addFilter_paging selectAll f) as [-> ->]. reflexivity.
Qed.



(** A positive limit bounds the rows of any query that returns. *)
Lemma runQuery_limit_bound (rows selected : list Message) (q : Query)
    (l : Z) :
  q_limit q = Some l -> 0 < l ->
  runQuery unsafePaging rows q = Return selected ->
  (List.length selected <= Z.to_nat l)%nat.
Proof.
  intros Hl Hpos. unfold runQuery. rewrite Hl.
  destruct (inSafeRange (Some l) && inSafeRange (q_offset q)).
  - intros H. injection H as <-. apply firstn_le_length.
  - destruct (unsafePaging _ _ _) as [ msg | page ]; [discriminate | ].
    intros H. injection H as <-.
    assert (Hlt : (0 <? l) = true) by now apply Z.ltb_lt.
    rewrite Hlt. apply firstn_le_length.
Qed.



Lemma getNotifications_unpaged (rows : list Message)
    (f : NotificationsFilter) :
  getNotifications ilike unsafePaging rows f 0 0
  = Return (map toNotification (matchingRows ilike f rows)).
Proof.
  unfold getNotifications. cbn [Z.ltb Z.eqb Z.gtb Z.compare orb andb].
  now rewrite runQuery_unpaged.
Qed.


(** C10: every notification returned by [getNotifications] has
    [readByUser] false, whatever the stored rows are. *)
Theorem C10_readByUser_always_false (rows : list Message)
    (filter : NotificationsFilter) (pageSize pageNumber : Z)
    (notifications : list Notification) :
  getNotifications ilike unsafePaging rows filter pageSize pageNumber
    = Return notifications ->
  Forall (fun n => readByUser n = false) notifications.
Proof.
  unfold getNotifications.
  destruct ((pageSize <? 0) || (pageNumber <? 0)
            || ((pageSize =? 0) && (pageNumber >? 0))
            || ((pageSize >? 0) && (pageNumber =? 0))); [discriminate | ].
  destruct (runQuery _ _ _) as [ msg | messages ]; [discriminate | ].
  intros H. injection H as <-.
  apply Forall_forall. intros n Hn. apply in_map_iff in Hn.
  destruct Hn as (m & <- & _). reflexivity.
Qed.

Lemma rejections_in (promises : list (Exc unit)) (msg : string) :
  In msg (rejections promises) <-> In (Throw msg) promises.
Proof.
  induction promises as [ | [ m | u ] rest IH ]; simpl.
  - split; intros H; exact H.
  - rewrite IH. split; intros [ H | H ].
    + left. now rewrite H.
    + right. exact H.
    + left. now injection H.
    + right. exact H.
  - rewrite IH. split.
    + intros H. right. exact H.
    + intros [ H | H ]; [discriminate H | exact H].
Qed.

Lemma awaitAll_throw (promises : list (Exc unit)) (msg : string) :
  In (Throw msg) promises ->
  exists msg', awaitAll firstToReject promises = Throw msg'.
Proof.
  intros Hin. apply rejections_in in Hin. unfold awaitAll.
  destruct (rejections promises) as [ | first rest ]; [contradiction | eauto].
Qed.

Lemma awaitAll_return (promises : list (Exc unit)) :
  (forall p, In p promises -> p = Return tt) ->
  awaitAll firstToReject promises = Return tt.
Proof.
  intros Hall. unfold awaitAll.
  destruct (rejections promises) as [ | first rest ] eqn:Hrej;
    [reflexivity | ].
  assert (Hin : In first (rejections promises))
    by (rewrite Hrej; now left).
  apply rejections_in in Hin. apply Hall in Hin. discriminate.
Qed.

Lemma nth_default_in {A} (n : nat) (l : list A) (d : A) :
  In (nth n (d :: l) d) (d :: l).
Proof.
  destruct (Nat.lt_ge_cases n (List.length (d :: l))) as [ Hlt | Hge ].
  - apply nth_In. exact Hlt.
  - rewrite nth_overflow by exact Hge. now left.
Qed.

(** The reason reported is that of one of the rejected promises. *)
Lemma awaitAll_thrown (promises : list (Exc unit)) (msg : string) :
  awaitAll firstToReject promises = Throw msg -> In (Throw msg) promises.
Proof.
  unfold awaitAll.
  destruct (rejections promises) as [ | first rest ] eqn:Hrej;
    [discriminate | ].
  intros H. injection H as <-. apply rejections_in. rewrite Hrej.
  exact (nth_default_in (firstToReject (first :: rest)) rest first).
Qed.

Lemma checkTargets_missing (getEntityByRef : string -> Exc (option Entity))
    (kind : string) (names : option (list string)) (name : string) :
  In name (namesOf names) ->
  getEntityByRef (kind ++ ":" ++ name)%string = Return None ->
  exists msg, checkTargets firstToReject getEntityByRef kind names = Throw msg.
Proof.
  destruct names as [ names | ]; cbn [namesOf checkTargets];
    [ | contradiction ].
  intros Hin Hnone.
  apply awaitAll_throw
    with (msg := (kind ++ " '" ++ name ++ "' does not exist")%string).
  apply in_map_iff. exists name. split; [ | exact Hin ].
  unfold checkEntity. now rewrite Hnone.
Qed.

Lemma checkTargets_exist (getEntityByRef : string -> Exc (option Entity))
    (kind : string) (names : option (list string)) :
  (forall name, In name (namesOf names) ->
     exists e, getEntityByRef (kind ++ ":" ++ name)%string = Return (Some e)) ->
  checkTargets firstToReject getEntityByRef kind names = Return tt.
Proof.
  destruct names as [ names | ]; cbn [namesOf checkTargets];
    [ | reflexivity ].
  intros Hall. apply awaitAll_return. intros p Hp.
  apply in_map_iff in Hp. destruct Hp as (name & <- & Hin).
  destruct (Hall name Hin) as [e He]. unfold checkEntity. now rewrite He.
Qed.

(** C9: [createNotification] checks every target group and user in the
    catalog first.  If one of them does not exist it throws and the
    table is left as it was; whenever it throws the table is unchanged;
    if all exist it appends exactly one row, built from the request,
    and returns that row's id. *)
Theorem C9_createNotification_validates (rows : list Message)
    (getEntityByRef : string -> Exc (option Entity))
    (req : CreateNotificationRequest) :
  (SomeTargetMissing getEntityByRef req ->
   exists msg,
     createNotification defaultId defaultCreated firstToReject rows
       getEntityByRef req
     = (rows, Throw msg))
  /\ (forall msg,
        snd (createNotification defaultId defaultCreated firstToReject rows
               getEntityByRef req) = Throw msg ->
        fst (createNotification defaultId defaultCreated firstToReject rows
               getEntityByRef req) = rows)
  /\ (AllTargetsExist getEntityByRef req ->
      exists row,
        createNotification defaultId defaultCreated firstToReject rows
          getEntityByRef req
        = (rows ++ [row], Return {| msgid := id row |})
        /\ origin row = req_origin req
        /\ title row = req_title req
        /\ message row = req_message req
        /\ topic row = req_topic req).
Proof.
  unfold createNotification. split; [ | split ].
  - intros Hmissing.
    destruct (checkTargets firstToReject getEntityByRef "group"
                (targetGroups req))
      as [ m | [] ] eqn:Hgroups; [eauto | ].
    destruct (checkTargets firstToReject getEntityByRef "user"
                (targetUsers req))
      as [ m | [] ] eqn:Husers; [eauto | ].
    exfalso.
    destruct Hmissing as [ (name & Hin & Hnone) | (name & Hin & Hnone) ].
    + destruct (checkTargets_missing getEntityByRef "group" _ _ Hin Hnone)
        as [msg Hmsg].
      congruence.
    + destruct (checkTargets_missing getEntityByRef "user" _ _ Hin Hnone)
        as [msg Hmsg].
      congruence.
  - intros msg.
    destruct (checkTargets firstToReject getEntityByRef "group"
                (targetGroups req))
      as [ m | [] ]; [reflexivity | ].
    destruct (checkTargets firstToReject getEntityByRef "user"
                (targetUsers req))
      as [ m | [] ]; [reflexivity | ].
    simpl. discriminate.
  - intros [Hgroups Husers].
    rewrite (checkTargets_exist getEntityByRef "group" _ Hgroups).
    rewrite (checkTargets_exist getEntityByRef "user" _ Husers).
    exists {| id := defaultId rows;
              created := defaultCreated rows;
              origin := req_origin req;
              title := req_title req;
              message := req_message req;
              topic := req_topic req |}.
    repeat split.
Qed.

End NotificationFacts.

(** * The handlers on the sample table *)

Section InboxFacts.

Import Notifications NotificationsRoutes Inbox.



(** C9 on the sample table: both targets are in the catalog. *)
Lemma C9_createNotification_validates_witness :
  exists row,
    createNotification defaultId defaultCreated firstToReject inbox
      getEntityByRef (request (Some ["ann"]) (Some ["admins"]))
    = (inbox ++ [row], Return {| msgid := id row |})
    /\ origin row = "ci"
    /\ title row = "Build failed"
    /\ message row = Some "See the pipeline log"
    /\ topic row = None.
Proof.
  apply (proj2 (proj2 (C9_createNotification_validates
                         defaultId defaultCreated firstToReject inbox
                         getEntityByRef
                         (request (Some ["ann"]) (Some ["admins"]))))).
  split; intros name [ <- | [] ]; exists tt; reflexivity.
Defined.

(** C10 on the sample table: the unpaged, unfiltered listing. *)
Lemma C10_readByUser_always_false_witness :
  Forall (fun n => readByUser n = false)
         [toNotification diskRow; toNotification deployRow;
          toNotification quotaRow].
Proof.
  apply (@C10_readByUser_always_false ilike unsafePaging inbox noFilter 0 0).
  reflexivity.
Defined.

End InboxFacts.

(** * Paging, filtering and counting notifications *)

Section ListingFacts.

Import Notifications NotificationsRoutes.

Variable Entity : Type.
Variable ilike : string -> string -> bool.
Variable defaultId : list Message -> string.
Variable defaultCreated : list Message -> Z.
Variable unsafePaging :
  list Message -> option Z -> option Z -> Exc (list Message).
Variable firstToReject : list string -> nat.

(** X1: the count handler returns the number of notifications that the
    unpaged listing returns for the same filter. *)
Theorem count_agrees_with_listing (rows : list Message)
    (f : NotificationsFilter) :
  exists notifications,
    getNotifications ilike unsafePaging rows f 0 0 = Return notifications
    /\ getNotificationsCount ilike unsafePaging rows f
       = Return {| count := Z.of_nat (List.length notifications) |}.
Proof.
  exists (map toNotification (matchingRows ilike f rows)).
  split; [apply getNotifications_unpaged | ].
  unfold getNotificationsCount, runCount.
  now rewrite runQuery_unpaged, length_map.
Qed.

(** X2: a page of positive size never holds more than [pageSize]
    notifications. *)
Theorem page_length_bounded (rows : list Message) (f : NotificationsFilter)
    (size page : Z) (notifications : list Notification) :
  0 < size ->
  getNotifications ilike unsafePaging rows f size page
    = Return notifications ->
  Z.of_nat (List.length notifications) <= size.
Proof.
  intros Hs. unfold getNotifications.
  destruct ((size <? 0) || (page <? 0)
            || ((size =? 0) && (page >? 0))
            || ((size >? 0) && (page =? 0))) eqn:Hguard;
    [discriminate | ].
  destruct (page >? 0) eqn:Hpage.
  - destruct (runQuery _ _ _) as [ msg | messages ] eqn:Hrun;
      [discriminate | ].
    intros H. injection H as <-. rewrite length_map.
    pose proof (fun Hl => @runQuery_limit_bound unsafePaging rows messages
                            _ size Hl Hs Hrun) as Hbound.
    specialize (Hbound eq_refl). lia.
  - intros _. exfalso.
    assert (Hthrow : size < 0 \/ page < 0
                     \/ (size = 0 /\ page <> 0) \/ (size <> 0 /\ page = 0)).
    { destruct (Z.gtb_spec page 0); [discriminate | ].
      destruct (Z.eq_dec page 0);
        [ right; right; right; lia | right; left; lia ]. }
    apply paging_guard in Hthrow. congruence.
Qed.


Lemma wheres_addFilter_no_conditions (f : NotificationsFilter) :
  NoConditions f -> wheres (addFilter ilike selectAll f) = [].
Proof.
  intros [[Htext | Htext] Hcreated]; unfold addFilter;
    rewrite Htext, Hcreated; reflexivity.
Qed.

Lemma matchingRows_no_conditions (rows : list Message)
    (f : NotificationsFilter) :
  NoConditions f -> matchingRows ilike f rows = rows.
Proof.
  intros Hf. unfold matchingRows.
  rewrite (wheres_addFilter_no_conditions Hf). simpl.
  induction rows as [ | m rows IH ]; simpl; [reflexivity | now rewrite IH].
Qed.

(** X5: with no [containsText] (or an empty one) and no [createdAfter],
    the unpaged listing has one notification per stored row, in table
    order. *)
Theorem empty_filter_lists_every_row (rows : list Message)
    (f : NotificationsFilter) :
  NoConditions f ->
  getNotifications ilike unsafePaging rows f 0 0
  = Return (map toNotification rows).
Proof.
  intros Hf. rewrite getNotifications_unpaged.
  now rewrite matchingRows_no_conditions.
Qed.

Lemma ilikeColumn_true (column : option string) (pattern : string) :
  ilikeColumn ilike column pattern = true
  <-> exists body, column = Some body /\ ilike body pattern = true.
Proof.
  destruct column as [ body | ]; simpl; split.
  - eauto.
  - intros (body' & Heq & Hb). now injection Heq as ->.
  - discriminate.
  - intros (body' & Heq & _). discriminate.
Qed.

(** X6: a row is selected exactly when it is stored and meets both
    conditions of the filter: its title or its message matches
    [%containsText%] (a row without message can only match by title),
    and it was created strictly after [createdAfter]. *)
Theorem matching_rows_meet_both_conditions (rows : list Message)
    (f : NotificationsFilter) (m : Message) :
  In m (matchingRows ilike f rows)
  <-> In m rows /\ TextMatches ilike f m /\ CreatedMatches f m.
Proof.
  unfold matchingRows, TextMatches, CreatedMatches, addFilter.
  rewrite filter_In.
  destruct (containsText f) as [ text | ];
    [ destruct (truthy_string text) | ];
    destruct (createdAfter f) as [ after | ]; simpl;
    rewrite ?andb_true_iff, ?orb_true_iff, ?Z.gtb_lt, ?ilikeColumn_true;
    (split; intros H;
     repeat match goal with
            | H : _ /\ _ |- _ => destruct H
            end;
     repeat split;
     try assumption; try reflexivity; try discriminate;
     try (intros _; assumption);
     try match goal with
         | H : true = true -> _ |- _ => exact (H eq_refl)
         end).
Qed.

(** X7: after a successful [createNotification] the unfiltered listing
    is the previous listing followed by one unread notification that
    carries the returned id and the request's origin, title, message
    and topic; and the count grows by one. *)
Theorem created_notification_is_listed (rows : list Message)
    (getEntityByRef : string -> Exc (option Entity))
    (req : CreateNotificationRequest) (f : NotificationsFilter) :
  AllTargetsExist getEntityByRef req ->
  NoConditions f ->
  exists rows' newId,
    createNotification defaultId defaultCreated firstToReject rows
      getEntityByRef req
    = (rows', Return {| msgid := newId |})
    /\ getNotifications ilike unsafePaging rows' f 0 0
       = Return (map toNotification rows
                 ++ [{| n_id := newId;
                        n_created := defaultCreated rows;
                        readByUser := false;
                        n_origin := req_origin req;
                        n_title := req_title req;
                        n_message := req_message req;
                        n_topic := req_topic req |}])
    /\ getNotificationsCount ilike unsafePaging rows' f
       = Return {| count := Z.of_nat (List.length rows) + 1 |}.
Proof.
  intros [Hgroups Husers] Hf.
  unfold createNotification.
  rewrite (checkTargets_exist firstToReject getEntityByRef "group" _ Hgroups).
  rewrite (checkTargets_exist firstToReject getEntityByRef "user" _ Husers).
  cbn [insertReturningId id].
  eexists. eexists. split; [reflexivity | ]. split.
  - rewrite getNotifications_unpaged, matchingRows_no_conditions
      by assumption.
    now rewrite map_app.
  - unfold getNotificationsCount, runCount.
    rewrite runQuery_unpaged, matchingRows_no_conditions by assumption.
    rewrite length_app. simpl. do 2 f_equal. lia.
Qed.

(** X8: the target lists are only checked, never stored: two requests
    with the same origin, title, message and topic whose targets all
    exist leave the same table and return the same id, whatever their
    [targetUsers] and [targetGroups] are. *)
Theorem targets_are_not_stored (rows : list Message)
    (getEntityByRef : string -> Exc (option Entity))
    (req1 req2 : CreateNotificationRequest) :
  req_origin req1 = req_origin req2 ->
  req_title req1 = req_title req2 ->
  req_message req1 = req_message req2 ->
  req_topic req1 = req_topic req2 ->
  AllTargetsExist getEntityByRef req1 ->
  AllTargetsExist getEntityByRef req2 ->
  createNotification defaultId defaultCreated firstToReject rows
    getEntityByRef req1
  = createNotification defaultId defaultCreated firstToReject rows
      getEntityByRef req2.
Proof.
  intros Ho Ht Hm Hp [Hg1 Hu1] [Hg2 Hu2]. unfold createNotification.
  rewrite (checkTargets_exist firstToReject getEntityByRef "group" _ Hg1).
  rewrite (checkTargets_exist firstToReject getEntityByRef "user" _ Hu1).
  rewrite (checkTargets_exist firstToReject getEntityByRef "group" _ Hg2).
  rewrite (checkTargets_exist firstToReject getEntityByRef "user" _ Hu2).
  now rewrite Ho, Ht, Hm, Hp.
Qed.

(** X9: groups are checked before users.  When every group lookup
    answers and some group is unknown, the call throws
    [group '<name>' does not exist] for an unknown group of the request,
    whatever the users are, and the table is unchanged. *)
Theorem unknown_group_is_reported_first (rows : list Message)
    (getEntityByRef : string -> Exc (option Entity))
    (req : CreateNotificationRequest) :
  (forall group, In group (namesOf (targetGroups req)) ->
     exists answer,
       getEntityByRef ("group:" ++ group)%string = Return answer) ->
  (exists group, In group (namesOf (targetGroups req))
                 /\ getEntityByRef ("group:" ++ group)%string = Return None) ->
  exists group,
    In group (namesOf (targetGroups req))
    /\ getEntityByRef ("group:" ++ group)%string = Return None
    /\ createNotification defaultId defaultCreated firstToReject rows
         getEntityByRef req
       = (rows, Throw ("group '" ++ group ++ "' does not exist")%string).
Proof.
  intros Hanswer (missing & Hin & Hnone).
  destruct (checkTargets_missing firstToReject getEntityByRef "group" _ _
              Hin Hnone)
    as [msg Hmsg].
  unfold createNotification. rewrite Hmsg.
  destruct (targetGroups req) as [ names | ]; cbn [namesOf checkTargets] in *;
    [ | contradiction ].
  apply awaitAll_thrown in Hmsg. apply in_map_iff in Hmsg.
  destruct Hmsg as (group & Hcheck & Hgroup).
  exists group. split; [exact Hgroup | ].
  unfold checkEntity in Hcheck.
  destruct (Hanswer group Hgroup) as [answer Hans].
  change (("group" ++ ":" ++ group)%string) with (("group:" ++ group)%string)
    in Hcheck.
  rewrite Hans in Hcheck. destruct answer as [ e | ]; [discriminate | ].
  split; [exact Hans | ]. now injection Hcheck as <-.
Qed.

End ListingFacts.

(** * What the input-schema route can and cannot answer *)

Section RouteSafety.

Import Orchestrator.

Variable Schema : Type.
Variable key : string.
Variable services : Services Schema.
Variable workflowId : string.
Variables instanceId assessmentInstanceId : option string.

(** Split on the innermost condition the route is waiting on. *)
Ltac route_case :=
  match goal with
  | |- context [match ?x with _ => _ end] =>
      lazymatch x with
      | context [match _ with _ => _ end] => fail
      | _ => destruct x eqn:?
      end
  end.

Ltac route_cases :=
  unfold run, inputSchemaRoute, fetchVariablesIf, bind, call, ret, throw,
    respond;
  repeat (cbn beta iota zeta; route_case);
  cbn [fst snd responseOf negb app].

(** X12: the route ends in one of three ways: an uncaught error, status
    500 with a text message, or status 200 with a JSON response. *)
Theorem route_ends_in_one_of_three_ways :
  (exists msg,
     snd (run (inputSchemaRoute key services workflowId
                 instanceId assessmentInstanceId)) = Threw msg)
  \/ (exists text,
        snd (run (inputSchemaRoute key services workflowId
                    instanceId assessmentInstanceId)) = Sent 500 (Text text))
  \/ (exists r,
        snd (run (inputSchemaRoute key services workflowId
                    instanceId assessmentInstanceId)) = Sent 200 (Json r)).
Proof.
  route_cases; eauto.
Qed.

(** X11: a 200 response is grounded in what the collaborators said: it
    carries the definition and the uri the engine returned, and its
    [schemas] are either empty with an empty initial state, because the
    definition declares no input schema, or exactly the fragments
    parsed from the runtime input schema. *)
Theorem ok_response_is_grounded (r : WorkflowDataInputSchemaResponse Schema) :
  responseOf (snd (run (inputSchemaRoute key services workflowId
                          instanceId assessmentInstanceId))) = Some r ->
  fetchWorkflowDefinition services workflowId
    = Return (Some (definition (workflowItem r)))
  /\ fetchWorkflowUri services workflowId
     = Return (Some (uri (workflowItem r)))
  /\ ((truthy_dataInputSchema
         (dataInputSchema (definition (workflowItem r))) = false
       /\ schemas r = []
       /\ values (initialState r) = []
       /\ readonlyKeys (initialState r) = [])
      \/ (exists url info schema,
            fetchWorkflowInfo services workflowId url = Return (Some info)
            /\ inputSchema info = Some schema
            /\ parseComposition services schema = Return (schemas r))).
Proof.
  route_cases; intros Hr; try discriminate Hr; injection Hr as <-;
    cbn [workflowItem definition uri schemas initialState values
         readonlyKeys];
    subst;
    (split; [reflexivity | ]); (split; [reflexivity | ]);
    first [ left; split;
            [ apply negb_true_iff; assumption | repeat split; reflexivity ]
          | right; do 3 eexists;
            split; [ eassumption | split; eassumption ] ].
Qed.

(** X13: the data index is asked for the variables of an instance only
    if the request names that instance, as [instanceId] or as
    [assessmentInstanceId], with a non-empty id. *)
Theorem variables_fetched_only_for_requested_ids (i : string) :
  In (CallFetchProcessInstanceVariables i)
     (fst (run (inputSchemaRoute key services workflowId
                  instanceId assessmentInstanceId))) ->
  (instanceId = Some i \/ assessmentInstanceId = Some i)
  /\ truthy_string i = true.
Proof.
  route_cases; intros Hin; cbn [In] in Hin;
    repeat (destruct Hin as [ Hin | Hin ]; try discriminate Hin);
    try contradiction;
    injection Hin as <-; split; auto.
Qed.

(** X14: the state of a 200 response is taken whole from the
    instances of the request.  [values] is empty or exactly what the
    extraction returned for the workflow data of the primary or of the
    assessment instance; [readonlyKeys] is empty or the defined keys of
    what it returned for the assessment instance. *)
Theorem state_comes_from_whole_extractions
    (r : WorkflowDataInputSchemaResponse Schema) :
  responseOf (snd (run (inputSchemaRoute key services workflowId
                          instanceId assessmentInstanceId))) = Some r ->
  (values (initialState r) = []
   \/ exists i vars,
        (instanceId = Some i \/ assessmentInstanceId = Some i)
        /\ fetchProcessInstanceVariables services i = Return vars
        /\ truthy (workflowDataOf key vars) = true
        /\ extractInitialStateFromWorkflowData services
             (workflowDataOf key vars) (schemas r)
           = Return (values (initialState r)))
  /\ (readonlyKeys (initialState r) = []
      \/ exists i vars st,
           assessmentInstanceId = Some i
           /\ fetchProcessInstanceVariables services i = Return vars
           /\ truthy (workflowDataOf key vars) = true
           /\ extractInitialStateFromWorkflowData services
                (workflowDataOf key vars) (schemas r)
              = Return st
           /\ readonlyKeys (initialState r) = readonlyKeysOf st).
Proof.
  route_cases; intros Hr; try discriminate Hr; injection Hr as <-;
    cbn [schemas initialState values readonlyKeys fst snd];
    subst;
    split;
    first [ left; reflexivity
          | match goal with
            | H : truthy (workflowDataOf _ None) = true |- _ =>
                cbn in H; discriminate H
            | H : false = true |- _ => discriminate H
            end
          | right; do 2 eexists;
            (split; [ | split; [ | split ] ]);
            [ | | | eassumption ]; [ | eassumption | ];
            [ first [ left; reflexivity | right; reflexivity ] | assumption ]
          | right; do 3 eexists;
            (split; [ | split; [ | split; [ | split ] ] ]);
            [ | | | | reflexivity ]; [ | | | eassumption ];
            [ | eassumption | ]; [ reflexivity | assumption ] ].
Qed.

(** X15: the route makes at least one and at most nine collaborator
    calls, and the first is always the data-index lookup of the
    workflow. *)
Theorem route_call_budget :
  exists rest,
    fst (run (inputSchemaRoute key services workflowId
                instanceId assessmentInstanceId))
    = CallGetWorkflowDefinition workflowId :: rest
    /\ (List.length rest <= 8)%nat.
Proof.
  route_cases; eexists; (split; [reflexivity | ]); cbn [List.length]; lia.
Qed.

(** X16: a schema the parser rejects fails the request with the
    parser's error, before any instance variables are looked up. *)
Theorem parse_error_fails_the_request
    (url : string) (def : WorkflowDefinition) (u : string) (schema : Schema)
    (msg : string) :
  ReachesParse services workflowId url def u schema ->
  parseComposition services schema = Throw msg ->
  run (inputSchemaRoute key services workflowId
         instanceId assessmentInstanceId) =
  ([CallGetWorkflowDefinition workflowId;
    CallFetchWorkflowDefinition workflowId;
    CallFetchWorkflowUri workflowId;
    CallFetchWorkflowInfo workflowId url;
    CallParseComposition],
   Threw msg).
Proof.
  intros [[(wd & Hwd & Hurl) (Hu & Hdef & Huri & Htu)]
          (Hdis & info & Hinfo & Hschema)] Hparse.
  unfold run, inputSchemaRoute, bind, call.
  rewrite Hwd, Hurl, Hu, Hdef, Huri, Htu, Hdis, Hinfo, Hschema, Hparse.
  reflexivity.
Qed.

(** X17: a failing lookup of the primary instance's variables is fatal:
    the request ends with the lookup's error and the assessment
    instance is never looked up. *)
Theorem primary_lookup_error_fails_the_request
    (url : string) (def : WorkflowDefinition) (u : string) (schema : Schema)
    (fragments : list Schema) (i msg : string) :
  ReachesParse services workflowId url def u schema ->
  parseComposition services schema = Return fragments ->
  instanceId = Some i ->
  truthy_string i = true ->
  fetchProcessInstanceVariables services i = Throw msg ->
  run (inputSchemaRoute key services workflowId
         instanceId assessmentInstanceId) =
  ([CallGetWorkflowDefinition workflowId;
    CallFetchWorkflowDefinition workflowId;
    CallFetchWorkflowUri workflowId;
    CallFetchWorkflowInfo workflowId url;
    CallParseComposition;
    CallFetchProcessInstanceVariables i],
   Threw msg).
Proof.
  intros [[(wd & Hwd & Hurl) (Hu & Hdef & Huri & Htu)]
          (Hdis & info & Hinfo & Hschema)] Hparse Hid Hi Hfetch.
  unfold run, inputSchemaRoute, bind, call, fetchVariablesIf.
  rewrite Hwd, Hurl, Hu, Hdef, Huri, Htu, Hdis, Hinfo, Hschema, Hparse.
  rewrite Hid, Hi. unfold call. rewrite Hfetch.
  reflexivity.
Qed.

End RouteSafety.

(** * The execute and delete routes, and the v2 overview *)

Section OtherRouteFacts.

Import Orchestrator OrchestratorRoutes.

Variable Schema : Type.
Variable services : Services Schema.
Variable more : MoreServices.
Variable workflowId : string.

(** X18: the engine is asked to execute a workflow only at the non-empty
    service url the data index records for it, with the request's body
    and business key; and the route answers 200 only with the truthy
    response of that execution. *)
Theorem execute_uses_the_recorded_endpoint (businessKey : option string)
    (body : JsValue) :
  (forall args,
     In (RouteExecuteWorkflow args)
        (fst (rrun (executeRoute services more workflowId businessKey body))) ->
     (exists wd, getWorkflowDefinition services workflowId = Return wd
                 /\ serviceUrl wd = Some (exec_endpoint args))
     /\ truthy_string (exec_endpoint args) = true
     /\ exec_workflowId args = workflowId
     /\ exec_inputData args = body
     /\ exec_businessKey args = businessKey)
  /\ (forall reply,
        snd (rrun (executeRoute services more workflowId businessKey body))
        = RouteSent 200 reply ->
        exists args response,
          In (RouteExecuteWorkflow args)
             (fst (rrun (executeRoute services more workflowId
                           businessKey body)))
          /\ executeWorkflow more args = Return response
          /\ truthy response = true
          /\ reply = ReplyJson response).
Proof.
  unfold rrun, executeRoute, rbind, rcall, rthrow, rrespond.
  destruct (getWorkflowDefinition services workflowId) as [ m | wd ] eqn:Hwd;
    cbn [fst snd app].
  { split; [ intros args [ H | [] ]; discriminate | discriminate ]. }
  destruct (serviceUrl wd) as [ url | ] eqn:Hurl; cbn [fst snd app];
    [ | split; [ intros args [ H | [] ]; discriminate | discriminate ] ].
  destruct (truthy_string url) eqn:Hu; cbn [negb fst snd app];
    [ | split; [ intros args [ H | [] ]; discriminate | discriminate ] ].
  destruct (executeWorkflow more _) as [ m | response ] eqn:Hexec;
    cbn [fst snd app];
    [ | destruct (truthy response) eqn:Hresp; cbn [negb fst snd app] ];
    (split;
     [ intros args [ H | [ H | [] ] ]; [ discriminate | ];
       injection H as <-; cbn; repeat split; eauto
     | intros reply H; try discriminate H ]).
  injection H as <-. do 2 eexists.
  split; [ right; left; reflexivity | ].
  split; [ exact Hexec | split; [ exact Hresp | reflexivity ] ].
Qed.

(** X19: the workflow service is asked to delete only the non-empty uri
    the engine returned for the workflow; and the route answers 200,
    with an empty body, only after that deletion returned. *)
Theorem delete_uses_the_fetched_uri :
  (forall u,
     In (RouteDeleteWorkflowDefinitionById u)
        (fst (rrun (deleteRoute services more workflowId))) ->
     fetchWorkflowUri services workflowId = Return (Some u)
     /\ truthy_string u = true)
  /\ (forall reply,
        snd (rrun (deleteRoute services more workflowId))
        = RouteSent 200 reply ->
        exists u,
          fetchWorkflowUri services workflowId = Return (Some u)
          /\ deleteWorkflowDefinitionById more u = Return tt
          /\ reply = ReplyEmpty).
Proof.
  unfold rrun, deleteRoute, rbind, rcall, rrespond.
  destruct (fetchWorkflowUri services workflowId) as [ m | [ u | ] ] eqn:Huri;
    cbn [fst snd app];
    [ split; [ intros v [ H | [] ]; discriminate | discriminate ]
    |
    | split; [ intros v [ H | [] ]; discriminate | discriminate ] ].
  destruct (truthy_string u) eqn:Hu; cbn [negb fst snd app];
    [ | split; [ intros v [ H | [] ]; discriminate | discriminate ] ].
  destruct (deleteWorkflowDefinitionById more u) as [ m | [] ] eqn:Hdel;
    cbn [fst snd app];
    (split;
     [ intros v [ H | [ H | [] ] ]; [ discriminate | ];
       injection H as <-; split; [ reflexivity | assumption ]
     | intros reply H; try discriminate H ]).
  injection H as <-. exists u. repeat split; assumption.
Qed.

(** X20: in a v2 overview result [totalCount] is the number of
    overviews returned, which is the number of items of the v1 result,
    and [limit] and [offset] are 0; there is a result only when the v1
    call returned a defined item list. *)
Theorem overview_total_is_the_number_of_overviews
    (WorkflowOverview WorkflowOverviewDTO : Type)
    (mapToWorkflowOverviewDTO : WorkflowOverview -> WorkflowOverviewDTO)
    (overviewsV1 : Exc (WorkflowOverviewListResult WorkflowOverview))
    (result : WorkflowOverviewListResultDTO WorkflowOverviewDTO) :
  getWorkflowOverview mapToWorkflowOverviewDTO overviewsV1 = Return result ->
  totalCount (paginationInfo result)
    = Z.of_nat (List.length (overviews result))
  /\ pg_limit (paginationInfo result) = 0
  /\ pg_offset (paginationInfo result) = 0
  /\ exists v1 list,
       overviewsV1 = Return v1 /\ items v1 = Some list
       /\ overviews result = map mapToWorkflowOverviewDTO list.
Proof.
  unfold getWorkflowOverview.
  destruct overviewsV1 as [ m | v1 ]; [discriminate | ].
  destruct (items v1) as [ list | ] eqn:Hitems; [ | discriminate ].
  intros H. injection H as <-. cbn. rewrite length_map.
  repeat split. eauto.
Qed.

End OtherRouteFacts.

(** * Who may create a notification *)

Section ApiFacts.

Import Notifications NotificationsApi.

Variable DefaultServiceUser : string.
Variable getBearerTokenFromAuthorizationHeader :
  option string -> option string.

Lemma prefix_slice (p s : string) :
  String.prefix p s = true -> (p ++ slice (String.length p) s)%string = s.
Proof.
  revert s. induction p as [ | a p IH ]; intros [ | b s ]; simpl;
    try reflexivity; try discriminate.
  destruct (Ascii.ascii_dec a b) as [ -> | ]; [ | discriminate ].
  intros H. now rewrite (IH s H).
Qed.

(** X21: a caller with an identity whose entity ref is non-empty is
    never checked against the token manager, and the name returned is
    the ref without its leading [user:], so that prefixing it with
    [user:] gives the ref back; a ref without that prefix is returned
    as it is. *)
Theorem identified_caller_keeps_its_ref (ref : string)
    (authorization : option string)
    (authenticate : string -> ApiResult unit) (s2s : bool) :
  truthy_string ref = true ->
  exists author,
    getLoggedInUser DefaultServiceUser getBearerTokenFromAuthorizationHeader
      (ApiReturn (Some {| userEntityRef := Some ref |}))
      authorization authenticate s2s
    = ([], ApiReturn author)
    /\ (String.prefix "user:" ref = true -> ("user:" ++ author)%string = ref)
    /\ (String.prefix "user:" ref = false -> author = ref).
Proof.
  intros Href. unfold getLoggedInUser. cbn [userEntityRef]. rewrite Href.
  eexists. split; [reflexivity | ].
  destruct (String.prefix "user:" ref) eqn:Hprefix.
  - split; [ intros _; now apply (prefix_slice "user:") | discriminate ].
  - split; [ discriminate | reflexivity ].
Qed.

(** X22: a caller without identity can only ever act as the default
    service user.  With service-to-service authentication on, that
    needs a non-empty bearer token which the token manager accepts, and
    it is the only token shown to the token manager; with it off, no
    token is looked at. *)
Theorem anonymous_caller_is_the_service_user
    (authorization : option string)
    (authenticate : string -> ApiResult unit) (s2s : bool) :
  (forall user,
     snd (getLoggedInUser DefaultServiceUser
            getBearerTokenFromAuthorizationHeader
            (ApiReturn None) authorization authenticate s2s)
     = ApiReturn user ->
     user = DefaultServiceUser
     /\ (s2s = true ->
         exists token,
           getBearerTokenFromAuthorizationHeader authorization = Some token
           /\ truthy_string token = true
           /\ authenticate token = ApiReturn tt
           /\ fst (getLoggedInUser DefaultServiceUser
                     getBearerTokenFromAuthorizationHeader
                     (ApiReturn None) authorization authenticate s2s)
              = [token]))
  /\ (s2s = false ->
      getLoggedInUser DefaultServiceUser getBearerTokenFromAuthorizationHeader
        (ApiReturn None) authorization authenticate s2s
      = ([], ApiReturn DefaultServiceUser)).
Proof.
  unfold getLoggedInUser. split.
  - intros user. destruct s2s; cbn [fst snd].
    + destruct (getBearerTokenFromAuthorizationHeader authorization)
        as [ token | ] eqn:Htoken; [ | discriminate ].
      destruct (truthy_string token) eqn:Ht; [ | discriminate ].
      destruct (authenticate token) as [ e | [] ] eqn:Hauth; [discriminate | ].
      cbn [fst snd]. intros H. injection H as <-.
      split; [reflexivity | ]. intros _. exists token. now repeat split.
    + intros H. injection H as <-. split; [reflexivity | discriminate].
  - intros ->. reflexivity.
Qed.


End ApiFacts.

(** * The added properties on the samples *)

Section SampleFacts.

Import DataInputSchemaModel Orchestrator OrchestratorRoutes.
Import Notifications NotificationsRoutes NotificationsApi.
Import Deployment Inbox Samples.

(** X2 on the sample table: the second page of size 1. *)
Lemma page_length_bounded_witness :
  Z.of_nat (List.length [toNotification quotaRow]) <= 1.
Proof.
  apply (@page_length_bounded ilike unsafePaging inbox diskFilter 1 2
           [toNotification quotaRow]).
  - lia.
  - reflexivity.
Defined.


(** X5 on the sample table. *)
Lemma empty_filter_lists_every_row_witness :
  getNotifications ilike unsafePaging inbox noFilter 0 0
  = Return (map toNotification inbox).
Proof.
  apply (@empty_filter_lists_every_row ilike unsafePaging inbox noFilter).
  split; [left | ]; reflexivity.
Defined.

(** X7 on the sample table: a notification for [ann]. *)
Lemma created_notification_is_listed_witness :
  exists rows' newId,
    createNotification defaultId defaultCreated firstToReject inbox
      getEntityByRef toAnn
    = (rows', Return {| msgid := newId |})
    /\ getNotifications ilike unsafePaging rows' noFilter 0 0
       = Return (map toNotification inbox
                 ++ [{| n_id := newId;
                        n_created := defaultCreated inbox;
                        readByUser := false;
                        n_origin := req_origin toAnn;
                        n_title := req_title toAnn;
                        n_message := req_message toAnn;
                        n_topic := req_topic toAnn |}])
    /\ getNotificationsCount ilike unsafePaging rows' noFilter
       = Return {| count := Z.of_nat (List.length inbox) + 1 |}.
Proof.
  apply (@created_notification_is_listed unit ilike defaultId defaultCreated
           unsafePaging firstToReject inbox getEntityByRef toAnn noFilter).
  - split; [ intros name [] | intros name [ <- | [] ]; exists tt; reflexivity ].
  - split; [left | ]; reflexivity.
Defined.

(** X8 on the sample table: for [ann] or for the [admins] group. *)
Lemma targets_are_not_stored_witness :
  createNotification defaultId defaultCreated firstToReject inbox
    getEntityByRef toAnn
  = createNotification defaultId defaultCreated firstToReject inbox
      getEntityByRef toAdmins.
Proof.
  apply (@targets_are_not_stored unit defaultId defaultCreated firstToReject
           inbox getEntityByRef toAnn toAdmins); try reflexivity.
  - split; [ intros name [] | intros name [ <- | [] ]; exists tt; reflexivity ].
  - split; [ intros name [ <- | [] ]; exists tt; reflexivity | intros name [] ].
Defined.

(** X9 on the sample table: group [ops] and user [bob] are unknown. *)
Lemma unknown_group_is_reported_first_witness :
  exists group,
    In group (namesOf (targetGroups toStrangers))
    /\ getEntityByRef ("group:" ++ group)%string = Return None
    /\ createNotification defaultId defaultCreated firstToReject inbox
         getEntityByRef toStrangers
       = (inbox, Throw ("group '" ++ group ++ "' does not exist")%string).
Proof.
  apply (@unknown_group_is_reported_first unit defaultId defaultCreated
           firstToReject inbox getEntityByRef toStrangers).
  - intros group [ <- | [ <- | [] ] ]; eexists; reflexivity.
  - exists "ops". split; [ right; left; reflexivity | reflexivity ].
Defined.

(** X11 on the deployment: the response for [i-ann]. *)
Lemma ok_response_is_grounded_witness :
  fetchWorkflowDefinition onboardServices "onboard"
    = Return (Some onboardDefinition)
  /\ fetchWorkflowUri onboardServices "onboard"
     = Return (Some "onboard.sw.yaml")
  /\ ((truthy_dataInputSchema (dataInputSchema onboardDefinition) = false
       /\ onboardFragments = []
       /\ [[("name", JStr "Ann")]; []] = []
       /\ @nil string = [])
      \/ (exists url info schema,
            fetchWorkflowInfo onboardServices "onboard" url
              = Return (Some info)
            /\ inputSchema info = Some schema
            /\ parseComposition onboardServices schema
               = Return onboardFragments)).
Proof.
  apply (@ok_response_is_grounded _ workflowDataKey onboardServices "onboard"
           (Some "i-ann") None
           {| workflowItem :=
                {| uri := "onboard.sw.yaml"; definition := onboardDefinition |};
              schemas := onboardFragments;
              initialState :=
                {| values := [[("name", JStr "Ann")]; []];
                   readonlyKeys := [] |} |}).
  reflexivity.
Defined.

(** X13 on the deployment: the lookup of [a-full]. *)
Lemma variables_fetched_only_for_requested_ids_witness :
  (Some "i-ann" = Some "a-full" \/ Some "a-full" = Some "a-full")
  /\ truthy_string "a-full" = true.
Proof.
  apply (@variables_fetched_only_for_requested_ids _ workflowDataKey
           onboardServices "onboard" (Some "i-ann") (Some "a-full") "a-full").
  vm_compute. tauto.
Defined.

(** X14 on the deployment: the fallback to [a-partial]. *)
Lemma state_comes_from_whole_extractions_witness :
  ([[("age", JNum 30)]; [("email", JStr "a@x.com")]] = []
   \/ exists i vars,
        (None = Some i \/ Some "a-partial" = Some i)
        /\ fetchProcessInstanceVariables onboardServices i = Return vars
        /\ truthy (workflowDataOf workflowDataKey vars) = true
        /\ extractInitialStateFromWorkflowData onboardServices
             (workflowDataOf workflowDataKey vars) onboardFragments
           = Return [[("age", JNum 30)]; [("email", JStr "a@x.com")]])
  /\ (["age"; "email"] = []
      \/ exists i vars st,
           Some "a-partial" = Some i
           /\ fetchProcessInstanceVariables onboardServices i = Return vars
           /\ truthy (workflowDataOf workflowDataKey vars) = true
           /\ extractInitialStateFromWorkflowData onboardServices
                (workflowDataOf workflowDataKey vars) onboardFragments
              = Return st
           /\ ["age"; "email"] = readonlyKeysOf st).
Proof.
  apply (@state_comes_from_whole_extractions _ workflowDataKey onboardServices
           "onboard" None (Some "a-partial")
           {| workflowItem :=
                {| uri := "onboard.sw.yaml"; definition := onboardDefinition |};
              schemas := onboardFragments;
              initialState :=
                {| values := [[("age", JNum 30)]; [("email", JStr "a@x.com")]];
                   readonlyKeys := ["age"; "email"] |} |}).
  reflexivity.
Defined.

(** X16 on the deployment: a runtime schema with a malformed member. *)
Lemma parse_error_fails_the_request_witness :
  resolve (services (Some "http://onboard.svc") (Some onboardDefinition)
             (Some brokenForm)) (Some "i-ann") (Some "a-full") =
  ([CallGetWorkflowDefinition "onboard";
    CallFetchWorkflowDefinition "onboard";
    CallFetchWorkflowUri "onboard";
    CallFetchWorkflowInfo "onboard" "http://onboard.svc";
    CallParseComposition],
   Threw "SchemaError").
Proof.
  apply (@parse_error_fails_the_request _ workflowDataKey
           (services (Some "http://onboard.svc") (Some onboardDefinition)
              (Some brokenForm))
           "onboard" (Some "i-ann") (Some "a-full") "http://onboard.svc"
           onboardDefinition "onboard.sw.yaml" brokenForm "SchemaError").
  - repeat split; try reflexivity.
    + eexists. split; reflexivity.
    + eexists. split; reflexivity.
  - reflexivity.
Defined.

(** X17 on the deployment with the data index down. *)
Lemma primary_lookup_error_fails_the_request_witness :
  resolve downServices (Some "i-ann") (Some "a-full") =
  ([CallGetWorkflowDefinition "onboard";
    CallFetchWorkflowDefinition "onboard";
    CallFetchWorkflowUri "onboard";
    CallFetchWorkflowInfo "onboard" "http://onboard.svc";
    CallParseComposition;
    CallFetchProcessInstanceVariables "i-ann"],
   Threw "ECONNREFUSED").
Proof.
  apply (@primary_lookup_error_fails_the_request _ workflowDataKey
           downServices "onboard" (Some "i-ann") (Some "a-full")
           "http://onboard.svc" onboardDefinition "onboard.sw.yaml"
           twoStepForm onboardFragments "i-ann" "ECONNREFUSED").
  - repeat split; try reflexivity.
    + eexists. split; reflexivity.
    + eexists. split; reflexivity.
  - reflexivity.
  - reflexivity.
  - reflexivity.
  - reflexivity.
Defined.

(** X18 on the deployment: executing [onboard] for order 7. *)
Lemma execute_uses_the_recorded_endpoint_witness :
  (exists wd, getWorkflowDefinition onboardServices "onboard" = Return wd
              /\ serviceUrl wd = Some (exec_endpoint orderArgs))
  /\ truthy_string (exec_endpoint orderArgs) = true
  /\ exec_workflowId orderArgs = "onboard"
  /\ exec_inputData orderArgs = orderBody
  /\ exec_businessKey orderArgs = Some "order-7".
Proof.
  apply (proj1 (@execute_uses_the_recorded_endpoint _ onboardServices
                  moreServices "onboard" (Some "order-7") orderBody)
           orderArgs).
  right. left. reflexivity.
Defined.

(** X19 on the deployment: deleting [onboard]. *)
Lemma delete_uses_the_fetched_uri_witness :
  fetchWorkflowUri onboardServices "onboard" = Return (Some "onboard.sw.yaml")
  /\ truthy_string "onboard.sw.yaml" = true.
Proof.
  apply (proj1 (@delete_uses_the_fetched_uri _ onboardServices moreServices
                  "onboard") "onboard.sw.yaml").
  right. left. reflexivity.
Defined.

(** X20 on a page of three overviews. *)
Lemma overview_total_is_the_number_of_overviews_witness :
  3 = Z.of_nat (List.length [7; 8; 5]%nat)
  /\ 0 = 0
  /\ 0 = 0
  /\ exists v1 list,
       Return overviewPage = Return v1 /\ items v1 = Some list
       /\ [7; 8; 5]%nat = map String.length list.
Proof.
  apply (@overview_total_is_the_number_of_overviews string nat String.length
           (Return overviewPage)
           {| overviews := [7; 8; 5]%nat;
              paginationInfo :=
                {| pg_limit := 0; pg_offset := 0; totalCount := 3 |} |}).
  reflexivity.
Defined.

(** X21 on the guest identity. *)
Lemma identified_caller_keeps_its_ref_witness :
  exists author,
    getLoggedInUser "service" bearerToken guest None authenticate true
    = ([], ApiReturn author)
    /\ (String.prefix "user:" "user:default/guest" = true ->
        ("user:" ++ author)%string = "user:default/guest")
    /\ (String.prefix "user:" "user:default/guest" = false ->
        author = "user:default/guest").
Proof.
  apply (@identified_caller_keeps_its_ref "service" bearerToken
           "user:default/guest" None authenticate true).
  reflexivity.
Defined.

(** X22 on a service call with the right token. *)
Lemma anonymous_caller_is_the_service_user_witness :
  "service" = "service"
  /\ (true = true ->
      exists token,
        bearerToken (Some "Bearer s3cret") = Some token
        /\ truthy_string token = true
        /\ authenticate token = ApiReturn tt
        /\ fst (getLoggedInUser "service" bearerToken (ApiReturn None)
                  (Some "Bearer s3cret") authenticate true)
           = [token]).
Proof.
  apply (proj1 (@anonymous_caller_is_the_service_user "service" bearerToken
                  (Some "Bearer s3cret") authenticate true) "service").
  reflexivity.
Defined.


End SampleFacts.
